(** * m_find_macs_by_vlans: MAC search by VLAN over a device inventory

    A shallow embedding of [m_find_macs_by_vlans.py] (the batch loop
    [script_main] and the per-device collector [per_device_work]) and the
    properties of the specification checked against it.

    Layout: Python built-ins used by the script ([Py]), the exception and
    effect model ([res], [M]), the external collaborators (sessions, the
    script object, the utilities), the two functions of the source, and
    then the theorems. *)

From Stdlib Require Import ZArith Ascii String.
From stdpp Require Import base gmap strings list.

Local Open Scope string_scope.
Local Open Scope Z_scope.

(** ** Exceptions and results *)

(** The exception classes that can travel through the script. The three
    classes named in the [except] clauses of [script_main] carry the
    [message] the handlers print; [OtherError] stands for any other class
    an external collaborator may raise. *)
Inductive exn : Type :=
| ScriptError (message : string)
| ConnectError (message : string)
| InteractionError (message : string)
| UnsupportedOSError (message : string)
| ValueError
| IndexError
| KeyError
| OtherError (message : string).

Inductive res (A : Type) : Type :=
| Ok (a : A)
| Raise (e : exn).
Arguments Ok {A} a.
Arguments Raise {A} e.

Definition is_ok {A} (r : res A) : bool :=
  match r with Ok _ => true | Raise _ => false end.

(** ** Python built-ins on byte strings (Python 2 [str]) *)

Module Py.

(** [str.isspace] per character in the C locale: space, tab, newline,
    vertical tab, form feed, carriage return. *)
Definition is_space (c : ascii) : bool :=
  let n := nat_of_ascii c in
  (Nat.eqb n 32 || (Nat.leb 9 n && Nat.leb n 13))%bool.

Fixpoint lstrip_chars (l : list ascii) : list ascii :=
  match l with
  | c :: l' => if is_space c then lstrip_chars l' else l
  | [] => []
  end.

Definition strip_chars (l : list ascii) : list ascii :=
  rev (lstrip_chars (rev (lstrip_chars l))).

(** [s.strip()] *)
Definition strip (s : string) : string :=
  string_of_list_ascii (strip_chars (list_ascii_of_string s)).

Definition lower_char (c : ascii) : ascii :=
  let n := nat_of_ascii c in
  if (Nat.leb 65 n && Nat.leb n 90)%bool then ascii_of_nat (n + 32) else c.

(** [s.lower()] *)
Fixpoint lower (s : string) : string :=
  match s with
  | EmptyString => EmptyString
  | String c s' => String (lower_char c) (lower s')
  end.

(** [s.split(sep)] for a one-character separator: the pieces between
    occurrences of [sep], empty pieces included; never the empty list. *)
Fixpoint split_chars (sep : ascii) (cur : list ascii) (l : list ascii)
  : list string :=
  match l with
  | [] => [string_of_list_ascii (rev cur)]
  | c :: l' =>
      if Ascii.eqb c sep
      then string_of_list_ascii (rev cur) :: split_chars sep [] l'
      else split_chars sep (c :: cur) l'
  end.

Definition split (sep : ascii) (s : string) : list string :=
  split_chars sep [] (list_ascii_of_string s).

Definition is_digit (c : ascii) : bool :=
  let n := nat_of_ascii c in (Nat.leb 48 n && Nat.leb n 57)%bool.

Definition digit_value (c : ascii) : Z := Z.of_nat (nat_of_ascii c - 48).

(** Value of a run of decimal digits, most significant first; [None] when
    a character is not a digit. *)
Fixpoint digits_value (acc : Z) (l : list ascii) : option Z :=
  match l with
  | [] => Some acc
  | c :: l' =>
      if is_digit c then digits_value (10 * acc + digit_value c) l'
      else None
  end.

Definition unsigned_value (l : list ascii) : option Z :=
  match l with
  | [] => None
  | _ :: _ => digits_value 0 l
  end.

(** [int(s)] in base 10: surrounding whitespace is ignored, one optional
    sign, then at least one decimal digit and nothing else; anything else
    raises [ValueError]. *)
Definition int (s : string) : res Z :=
  match strip_chars (list_ascii_of_string s) with
  | "+"%char :: l =>
      match unsigned_value l with Some n => Ok n | None => Raise ValueError end
  | "-"%char :: l =>
      match unsigned_value l with Some n => Ok (- n) | None => Raise ValueError end
  | l =>
      match unsigned_value l with Some n => Ok n | None => Raise ValueError end
  end.

(** [l[i]] for a non-negative literal index: [IndexError] out of range. *)
Definition index {A} (l : list A) (i : nat) : res A :=
  match l !! i with
  | Some x => Ok x
  | None => Raise IndexError
  end.

(** Truth value of a string: the empty string is false. *)
Definition truthy (s : string) : bool :=
  match s with EmptyString => false | String _ _ => true end.

(** [' ' * n] for an integer [n]: the empty string when [n <= 0]. *)
Definition spaces (n : Z) : string :=
  string_of_list_ascii (replicate (Z.to_nat n) " "%char).

(** [len(s)] *)
Definition len (s : string) : Z := Z.of_nat (String.length s).

End Py.

(** ** Effects: a trace of observable actions, with exceptions *)

(** What the script does to the outside world, in the order it does it. *)
Inductive event : Type :=
| EImportDeviceList
| EPromptWindow
| EOpenReport
| EWriteReport (text : string)
| EFlushReport
| ELogAppend (line : string)
| EConnect (hostname : string) (proxy : option string)
| EScriptDisconnect
| ESessionDisconnect
| EStartCiscoSession
| ECommand (cmd : string)
| EEndCiscoSession.

(** A computation emits events and either returns or raises; the events
    emitted before an exception stay emitted. *)
Definition M (A : Type) : Type := (list event * res A)%type.

Definition ret {A} (a : A) : M A := ([], Ok a).
Definition raise {A} (e : exn) : M A := ([], Raise e).
Definition lift {A} (r : res A) : M A := ([], r).
Definition emit (ev : event) : M unit := ([ev], Ok tt).
(** An external call: observable, and its result is the collaborator's. *)
Definition call {A} (ev : event) (r : res A) : M A := ([ev], r).

Definition bind {A B} (m : M A) (f : A -> M B) : M B :=
  match m with
  | (t, Ok a) => let (t', r) := f a in ((t ++ t')%list, r)
  | (t, Raise e) => (t, Raise e)
  end.

(** [try: m except ...: h e] *)
Definition catch {A} (m : M A) (h : exn -> M A) : M A :=
  match m with
  | (t, Raise e) => let (t', r) := h e in ((t ++ t')%list, r)
  | (t, Ok a) => (t, Ok a)
  end.

Definition rbind {A B} (r : res A) (f : A -> res B) : res B :=
  match r with
  | Ok a => f a
  | Raise e => Raise e
  end.

Declare Scope py_scope.
Delimit Scope py_scope with py.
Notation "x <- m ;; k" := (bind m (fun x => k))
  (at level 100, m at next level, right associativity) : py_scope.
Notation "m ;;; k" := (bind m (fun _ => k))
  (at level 100, right associativity) : py_scope.
Notation "x <-? r ;; k" := (rbind r (fun x => k))
  (at level 100, r at next level, right associativity) : py_scope.
Local Open Scope py_scope.

Definition events {A} (m : M A) : list event := fst m.
Definition outcome {A} (m : M A) : res A := snd m.

(** ** Data *)

(** One row of parsed command output: a Python list of string fields. *)
Definition entry : Type := list string.

(** A TextFSM template file, as returned by [script.get_template]. *)
Definition template : Type := string.

(** A device of the inventory: the row of the CSV file as a dict. The five
    keys read with [device[...]] are always there; ['Proxy Session'] may be
    missing, which the loop handles with [except KeyError]. *)
Record Device : Type := {
  Hostname : string;
  Protocol : string;
  Username : string;
  Password : string;
  Enable : string;
  Proxy_Session : option string
}.

(** A connected session, as far as [per_device_work] uses it. *)
Record Session : Type := {
  hostname : string;
  os : string;
  start_cisco_session : res unit;
  get_command_output : string -> res string;
  end_cisco_session : res unit
}.

(** The script object, as far as [script_main] and [per_device_work] use
    it. [connect] stands for [script.connect(...)] followed by
    [script.get_main_session()]. *)
Record Script : Type := {
  is_connected : bool;
  import_device_list : list Device;
  use_proxy : bool;
  proxy_session : string;
  prompt_window : string;
  connect : string -> string -> string -> string -> option string -> res Session;
  get_template : string -> res template
}.

Definition nl : string := String (ascii_of_nat 10) "".

(** The local variables of [per_device_work] that the filter loop reads or
    writes. *)
Record filter_vars : Type := {
  vlan_set : gset Z;
  exclude_ports : gmap Z string;
  fsm_results : list entry;
  results : list entry
}.

Definition inputs (st : filter_vars) : gset Z * gmap Z string * list entry :=
  (vlan_set st, exclude_ports st, fsm_results st).

Definition set_results (st : filter_vars) (r : list entry) : filter_vars :=
  {| vlan_set := vlan_set st; exclude_ports := exclude_ports st;
     fsm_results := fsm_results st; results := r |}.

(** ** The script *)

Section Script.

(** [securecrt_tools.utilities], which is not part of the script file:
    the three helpers are taken as they come. *)
Variable long_int_name : string -> string.
(** [textfsm_parse_to_list(raw, template, add_header=False)] *)
Variable textfsm_parse_to_list : string -> template -> list entry.
Variable expand_number_range : string -> res (list Z).

(** *** per_device_work *)

(** Body of [for entry in root_results] (lines 153-158). *)
Definition uplink_body (exclude_ports : gmap Z string) (entry : entry)
  : res (gmap Z string) :=
  vlan_string <-? Py.index entry 0 ;;
  piece <-? Py.index (Py.split "N" vlan_string) 1 ;;
  vlan <-? Py.int piece ;;
  field <-? Py.index entry 6 ;;
  let uplink := Py.strip (long_int_name field) in
  if Py.truthy uplink
  then Ok (<[vlan := uplink]> exclude_ports)
  else Ok exclude_ports.

Fixpoint uplink_loop (exclude_ports : gmap Z string) (root_results : list entry)
  : res (gmap Z string) :=
  match root_results with
  | [] => Ok exclude_ports
  | entry :: rest =>
      exclude_ports' <-? uplink_body exclude_ports entry ;;
      uplink_loop exclude_ports' rest
  end.

(** The uplink resolver: [exclude_ports = {}] followed by the loop. *)
Definition uplink_resolver (root_results : list entry) : res (gmap Z string) :=
  uplink_loop ∅ root_results.

(** Body of [for entry in fsm_results] (lines 179-194). The [ValueError]
    of [int] is caught and the row skipped; an [IndexError] is not. *)
Definition filter_body (st : filter_vars) (entry : entry) : res filter_vars :=
  field0 <-? Py.index entry 0 ;;
  match Py.int field0 with
  | Raise ValueError => Ok st
  | Raise e => Raise e
  | Ok vlan =>
      if decide (vlan ∈ vlan_set st) then
        let uplink :=
          match exclude_ports st !! vlan with
          | Some u => u
          | None => ""
          end in
        field2 <-? Py.index entry 2 ;;
        let mac_intf := Py.lower (long_int_name field2) in
        let uplink_intf := Py.lower (Py.strip uplink) in
        if negb (String.eqb mac_intf uplink_intf)
        then Ok (set_results st (results st ++ [entry])%list)
        else Ok st
      else Ok st
  end.

Fixpoint filter_loop (st : filter_vars) (rows : list entry) : res filter_vars :=
  match rows with
  | [] => Ok st
  | entry :: rest =>
      st' <-? filter_body st entry ;;
      filter_loop st' rest
  end.

(** Lines 178-194: [results = []] and the loop over [fsm_results]. *)
Definition run_filter (st : filter_vars) : res filter_vars :=
  filter_loop (set_results st []) (fsm_results st).

(** The MAC-table filter as a function of its three inputs. *)
Definition mac_filter (vs : gset Z) (ex : gmap Z string) (rows : list entry)
  : res (list entry) :=
  st <-? run_filter {| vlan_set := vs; exclude_ports := ex;
                       fsm_results := rows; results := [] |} ;;
  Ok (results st).

Variable script : Script.

Definition per_device_work (session : Session) (enable_pass : string)
    (vs : gset Z) : M (string * list entry) :=
  call EStartCiscoSession (start_cisco_session session) ;;;
  let hostname := hostname session in
  template_file <- lift (
    if String.eqb (os session) "IOS"
    then get_template script "cisco_os_show_spanning-tree_root.template"
    else get_template script "cisco_os_show_spanning-tree_root.template") ;;
  raw_stp_root <- call (ECommand "show spanning-tree root")
                    (get_command_output session "show spanning-tree root") ;;
  let root_results := textfsm_parse_to_list raw_stp_root template_file in
  exclude_ports <- lift (uplink_resolver root_results) ;;
  template_file <- lift (
    if String.eqb (os session) "NXOS"
    then get_template script "cisco_nxos_show_mac_addr_table.template"
    else get_template script "cisco_ios_show_mac_addr_table.template") ;;
  raw_mac <- call (ECommand "show mac address-table")
               (get_command_output session "show mac address-table") ;;
  let fsm_results := textfsm_parse_to_list raw_mac template_file in
  fsm_results <-
    (if (String.eqb (os session) "IOS" && Nat.eqb (length fsm_results) 1)%bool
     then
       let send_cmd := "show mac-address-table dynamic" in
       raw_mac <- call (ECommand send_cmd) (get_command_output session send_cmd) ;;
       ret (textfsm_parse_to_list raw_mac template_file)
     else ret fsm_results) ;;
  results <- lift (mac_filter vs exclude_ports fsm_results) ;;
  call EEndCiscoSession (end_cisco_session session) ;;;
  ret (hostname, results).

(** *** script_main *)

(** Lines 85-91: the proxy passed to [script.connect]. *)
Definition resolve_proxy (device : Device) : option string :=
  let proxy := Proxy_Session device in
  let falsy := match proxy with Some p => negb (Py.truthy p) | None => true end in
  if (falsy && use_proxy script)%bool then Some (proxy_session script) else proxy.

(** Lines 103-107: one table row. *)
Definition format_row (line : entry) : res string :=
  f0 <-? Py.index line 0 ;;
  f1 <-? Py.index line 1 ;;
  f2 <-? Py.index line 2 ;;
  Ok (f0 ++ Py.spaces (8 - Py.len f0) ++ f1 ++ Py.spaces (20 - Py.len f1) ++ f2).

Fixpoint write_rows (matched_macs : list entry) : M unit :=
  match matched_macs with
  | [] => ret tt
  | line :: rest =>
      output_line <- lift (format_row line) ;;
      emit (EWriteReport (output_line ++ nl)) ;;;
      write_rows rest
  end.

(** Lines 100-110: the section of a device with matches. *)
Definition write_section (hostname : string) (matched_macs : list entry) : M unit :=
  emit (EWriteReport ("### Device: " ++ hostname ++ " ###" ++ nl)) ;;;
  emit (EWriteReport ("VLAN    MAC                  PORT" ++ nl)) ;;;
  write_rows matched_macs ;;;
  emit (EWriteReport (nl ++ nl)) ;;;
  emit EFlushReport.

(** Lines 95-97: connect, then collect on the connected session. *)
Definition collect (vs : gset Z) (device : Device) : M (string * list entry) :=
  session <- call (EConnect (Hostname device) (resolve_proxy device))
               (connect script (Hostname device) (Username device)
                  (Password device) (Protocol device) (resolve_proxy device)) ;;
  per_device_work session (Enable device) vs.

(** Lines 95-110: the body of the [try]. *)
Definition device_attempt (vs : gset Z) (device : Device) : M unit :=
  r <- collect vs device ;;
  let '(hostname, matched_macs) := r in
  emit EScriptDisconnect ;;;
  match matched_macs with
  | [] => ret tt
  | _ :: _ => write_section hostname matched_macs
  end.

(** Lines 111-122: the three [except] clauses; any other exception
    leaves the [try] statement as it came. *)
Definition failure_handler (device : Device) (e : exn) : M unit :=
  match e with
  | ConnectError message =>
      emit (ELogAppend ("<M_SCRIPT> Connect to " ++ Hostname device
                          ++ " failed: " ++ Py.strip message ++ nl)) ;;;
      emit ESessionDisconnect
  | InteractionError message =>
      emit (ELogAppend ("<M_SCRIPT> Failure on " ++ Hostname device
                          ++ ": " ++ Py.strip message ++ nl)) ;;;
      emit ESessionDisconnect
  | UnsupportedOSError message =>
      emit (ELogAppend ("<M_SCRIPT> Unsupported OS on " ++ Hostname device
                          ++ ": " ++ Py.strip message ++ nl)) ;;;
      emit ESessionDisconnect
  | _ => raise e
  end.

Definition device_step (vs : gset Z) (device : Device) : M unit :=
  catch (device_attempt vs device) (failure_handler device).

(** Lines 79-122: [for device in device_list]. *)
Fixpoint device_loop (vs : gset Z) (device_list : list Device) : M unit :=
  match device_list with
  | [] => ret tt
  | device :: rest =>
      device_step vs device ;;;
      device_loop vs rest
  end.

Definition script_main : M unit :=
  if is_connected script
  then raise (ScriptError "This script must be launched in a not-connected tab.")
  else
    device_list <- call EImportDeviceList (Ok (import_device_list script)) ;;
    match device_list with
    | [] => ret tt
    | _ :: _ =>
        num_string <- call EPromptWindow (Ok (prompt_window script)) ;;
        if negb (Py.truthy num_string) then ret tt
        else
          numbers <- lift (expand_number_range num_string) ;;
          let vs : gset Z := list_to_set numbers in
          emit EOpenReport ;;;
          emit (EWriteReport ("MAC ADDRESS SEARCH IN VLANS: " ++ num_string
                                ++ nl ++ nl)) ;;;
          device_loop vs device_list
    end.

End Script.

(** ** The utilities and a simulated fleet, for concrete runs *)

Module Utilities.

Definition is_alpha (c : ascii) : bool :=
  let n := nat_of_ascii c in
  ((Nat.leb 65 n && Nat.leb n 90) || (Nat.leb 97 n && Nat.leb n 122))%bool.

Fixpoint span_alpha (s : string) : string * string :=
  match s with
  | EmptyString => (EmptyString, EmptyString)
  | String c s' =>
      if is_alpha c
      then let (p, r) := span_alpha s' in (String c p, r)
      else (EmptyString, s)
  end.

(** Modelled from the spec: [utilities.long_int_name] is not in the
    script file. Section 4.2 describes the interface name normalizer: the
    canonical long form of an abbreviated name such as [Gi1/0/1], in one
    case (lower case), with surrounding whitespace trimmed; a prefix that
    is not a known abbreviation is left as it is. The abbreviation the
    spec names is [Gi] for [GigabitEthernet]. *)
Definition long_int_name (int_name : string) : string :=
  let (prefix, rest) := span_alpha (Py.strip int_name) in
  if String.eqb (Py.lower prefix) "gi"
  then "gigabitethernet" ++ Py.lower rest
  else Py.lower (prefix ++ rest).

(** Modelled from the spec: [utilities.textfsm_parse_to_list] and the
    TextFSM templates are not in the script file. Section 4.3 asks for an
    ordered sequence of records of string fields, in line order, and for
    no record from an empty block. The simulated devices answer in a
    format that one template covers: one record per line, fields
    separated by [|]. *)
Definition textfsm_parse_to_list (raw : string) (_ : template) : list entry :=
  match raw with
  | EmptyString => []
  | _ => map (Py.split "|") (Py.split (ascii_of_nat 10) raw)
  end.

Definition number (token : string) : res Z :=
  match Py.int token with
  | Ok n => Ok n
  | Raise _ => Raise (OtherError "MalformedRangeError")
  end.

Definition token_numbers (token : string) : res (list Z) :=
  match Py.split "-" token with
  | [single] => n <-? number single ;; Ok [n]
  | [lo; hi] =>
      a <-? number lo ;;
      b <-? number hi ;;
      if Z.leb a b then Ok (seqZ a (b - a + 1))
      else Raise (OtherError "MalformedRangeError")
  | _ => Raise (OtherError "MalformedRangeError")
  end.

Fixpoint tokens_numbers (tokens : list string) : res (list Z) :=
  match tokens with
  | [] => Ok []
  | token :: rest =>
      ns <-? token_numbers token ;;
      ms <-? tokens_numbers rest ;;
      Ok (ns ++ ms)%list
  end.

(** Modelled from the spec: [utilities.expand_number_range] is not in the
    script file. Section 4.1: comma-separated tokens, each a non-negative
    integer or an inclusive range [lo-hi] with [lo <= hi]; anything else
    fails with MalformedRangeError; the empty input gives no number. *)
Definition expand_number_range (num_string : string) : res (list Z) :=
  match num_string with
  | EmptyString => Ok []
  | _ => tokens_numbers (Py.split "," num_string)
  end.

End Utilities.

(** ** What the specification says, in its own words *)

Section Described.

Variable long_int_name : string -> string.

(** Section 4.5, step 1: the vlan-field as an integer, if it is one. *)
Definition vlan_of_field (field : string) : option Z :=
  match Py.int field with
  | Ok v => Some v
  | Raise _ => None
  end.

(** Section 4.5, step 3: the uplink of a vlan, the empty string when the
    map has none. *)
Definition uplink_of (uplinks : gmap Z string) (vlan : Z) : string :=
  default "" (uplinks !! vlan).

(** Section 4.5, steps 1-5 for one record: numeric vlan, in the target
    set, and an interface that differs from the uplink once both are in
    canonical lower-case form. *)
Definition kept (targets : gset Z) (uplinks : gmap Z string) (record : entry)
  : bool :=
  match record with
  | vlan_field :: _ :: interface_field :: _ =>
      match vlan_of_field vlan_field with
      | Some vlan =>
          bool_decide (vlan ∈ targets)
          && negb (String.eqb (Py.lower (long_int_name interface_field))
                              (Py.lower (Py.strip (uplink_of uplinks vlan))))
      | None => false
      end
  | _ => false
  end.

(** The vlan id of a label as line 155 reads it: the text between the
    first N of the label and the next N (or the end), taken as an integer.
    A label such as [VLAN0010] has one; a label without an N, such as
    [Vlan10] or [MST0001], has none. *)
Definition label_vlan (label : string) : option Z :=
  match Py.split "N" label with
  | _ :: digits :: _ => vlan_of_field digits
  | _ => None
  end.

(** Section 4.4: the uplink a record contributes: its vlan id and its
    normalized root port, when that is not empty. *)
Definition contribution (record : entry) : option (Z * string) :=
  match record with
  | label :: _ :: _ :: _ :: _ :: _ :: root_port :: _ =>
      match label_vlan label with
      | Some vlan =>
          let port := Py.strip (long_int_name root_port) in
          if Py.truthy port then Some (vlan, port) else None
      | None => None
      end
  | _ => None
  end.

(** Last write wins: the uplink of [vlan] is the one contributed by the
    last record that contributes one for it. *)
Fixpoint last_uplink (vlan : Z) (records : list entry) : option string :=
  match records with
  | [] => None
  | record :: rest =>
      match last_uplink vlan rest with
      | Some port => Some port
      | None =>
          match contribution record with
          | Some (v, port) => if decide (v = vlan) then Some port else None
          | None => None
          end
      end
  end.

(** The records the resolver can read: at least seven fields, the first
    a label in which an integer follows the first N. *)
Definition root_record (record : entry) : Prop :=
  (7 <= length record)%nat /\
  exists label, record !! 0%nat = Some label /\ is_Some (label_vlan label).

(** A MAC-table record as the template gives it: vlan, mac, interface,
    and possibly more. *)
Definition mac_record (record : entry) : Prop := (3 <= length record)%nat.

End Described.

(** A label in which no character is a decimal digit. *)
Definition no_digits (s : string) : Prop :=
  forall c, In c (list_ascii_of_string s) -> Py.is_digit c = false.

(** ** Reading a trace *)

(** The lines appended to the failure log, in order. *)
Definition log_lines (t : list event) : list string :=
  flat_map (fun ev => match ev with ELogAppend line => [line] | _ => [] end) t.

(** The text written to the report file, in order. *)
Fixpoint report_text (t : list event) : string :=
  match t with
  | [] => ""
  | EWriteReport text :: t' => text ++ report_text t'
  | _ :: t' => report_text t'
  end.

(** The hosts [script.connect] was called for, in order. *)
Definition connects (t : list event) : list string :=
  flat_map (fun ev => match ev with EConnect host _ => [host] | _ => [] end) t.

Definition is_command (ev : event) : Prop :=
  match ev with ECommand _ => True | _ => False end.

(** What [per_device_work] does to a session. *)
Definition session_event (ev : event) : Prop :=
  match ev with
  | EStartCiscoSession | ECommand _ | EEndCiscoSession => True
  | _ => False
  end.

(** Automation mode entered first, left last, commands in between. *)
Definition bracketed (t : list event) : Prop :=
  exists cmds, t = (EStartCiscoSession :: cmds ++ [EEndCiscoSession])%list
               /\ Forall is_command cmds.

(** The fallback spelling of the MAC-table command. *)
Definition fallback_command : event := ECommand "show mac-address-table dynamic".

Definition event_eq_dec : forall x y : event, {x = y} + {x <> y}.
Proof. solve_decision. Defined.

(** [Q] holds of what a computation emitted and how it ended. *)
Definition post {A} (m : M A) (Q : list event -> res A -> Prop) : Prop :=
  Q (events m) (outcome m).

(** ** The report and the failure log, as the specification words them *)

(** Left-justified in a column of [width] characters: padded with spaces
    on the right, never cut. *)
Definition ljust (width : Z) (s : string) : string :=
  s ++ Py.spaces (width - Py.len s).

(** One table row: VLAN in 8 columns, MAC in 20, then the port as it is. *)
Definition row_text (row : entry) : string :=
  match row with
  | vlan :: mac :: port :: _ => ljust 8 vlan ++ ljust 20 mac ++ port ++ nl
  | _ => ""
  end.

Definition rows_text (rows : list entry) : string :=
  fold_right (fun row acc => row_text row ++ acc) "" rows.

(** Section 4.7: device header line, table header, one row per match, and
    the separator. *)
Definition section_text (hostname : string) (rows : list entry) : string :=
  "### Device: " ++ hostname ++ " ###" ++ nl
  ++ "VLAN    MAC                  PORT" ++ nl
  ++ rows_text rows
  ++ nl ++ nl.

(** Section 6: the header of the report for a range string. *)
Definition report_header (num_string : string) : string :=
  "MAC ADDRESS SEARCH IN VLANS: " ++ num_string ++ nl ++ nl.


(** The failure kinds the batch loop records (section 7). *)
Definition recoverable (e : exn) : Prop :=
  match e with
  | ConnectError _ | InteractionError _ | UnsupportedOSError _ => True
  | _ => False
  end.

(** Section 6: one line per failure, a tag for the kind, the hostname and
    the trimmed reason. *)
Definition failure_line (hostname : string) (e : exn) : list string :=
  match e with
  | ConnectError reason =>
      ["<M_SCRIPT> Connect to " ++ hostname ++ " failed: " ++ Py.strip reason ++ nl]
  | InteractionError reason =>
      ["<M_SCRIPT> Failure on " ++ hostname ++ ": " ++ Py.strip reason ++ nl]
  | UnsupportedOSError reason =>
      ["<M_SCRIPT> Unsupported OS on " ++ hostname ++ ": " ++ Py.strip reason ++ nl]
  | _ => []
  end.

Section Outcomes.

Variable long_int_name : string -> string.
Variable textfsm_parse_to_list : string -> template -> list entry.
Variable script : Script.

(** What a device contributes to the report: its section when it was
    collected with at least one match, nothing otherwise. *)
Definition device_report (vs : gset Z) (device : Device) : string :=
  match outcome (collect long_int_name textfsm_parse_to_list script vs device) with
  | Ok (hostname, (_ :: _) as matched) => section_text hostname matched
  | _ => ""
  end.

(** What a device contributes to the failure log. *)
Definition device_failure (vs : gset Z) (device : Device) : list string :=
  match outcome (collect long_int_name textfsm_parse_to_list script vs device) with
  | Raise e => failure_line (Hostname device) e
  | Ok _ => []
  end.

(** The sections of an inventory, one after the other. *)
Definition report_body (vs : gset Z) (devices : list Device) : string :=
  fold_right (fun device acc => device_report vs device ++ acc) "" devices.

(** Processing the device succeeds or fails in a way the loop records. *)
Definition survives (vs : gset Z) (device : Device) : Prop :=
  match outcome (collect long_int_name textfsm_parse_to_list script vs device) with
  | Ok _ => True
  | Raise e => recoverable e
  end.

End Outcomes.

(** ** A simulated fleet *)

Module Sim.

(** A session that answers the three commands with fixed text. *)
Definition session (host os_family stp mac legacy : string) : Session :=
  {| hostname := host;
     os := os_family;
     start_cisco_session := Ok tt;
     get_command_output := fun cmd =>
       if String.eqb cmd "show spanning-tree root" then Ok stp
       else if String.eqb cmd "show mac address-table" then Ok mac
       else if String.eqb cmd "show mac-address-table dynamic" then Ok legacy
       else Raise (InteractionError "unknown command");
     end_cisco_session := Ok tt |}.

Definition device (host : string) (proxy : option string) : Device :=
  {| Hostname := host; Protocol := "SSH2"; Username := "admin";
     Password := "secret"; Enable := "secret"; Proxy_Session := proxy |}.

(** An IOS switch with an uplink on Gi1/0/1 for VLAN 10 and three MAC
    entries. *)
Definition sw1 : Session :=
  session "sw1" "IOS"
    "VLAN0010|32778|0011.2233.4455|4|2|20|Gi1/0/1"
    ("10|aaaa.bbbb.cccc|Gi1/0/1" ++ nl ++
     "10|dddd.eeee.ffff|Fa0/2" ++ nl ++
     "20|1111.2222.3333|Fa0/3")
    "".

(** An NX-OS switch that is the root and has nothing in VLAN 10. *)
Definition sw2 : Session :=
  session "sw2" "NXOS" ""
    ("20|1111.2222.3333|Eth1/1" ++ nl ++ "30|4444.5555.6666|Eth1/2") "".

(** An IOS switch whose spanning-tree output has a label without a vlan
    number. *)
Definition sw_label : Session :=
  session "sw4" "IOS"
    "VLAN|32778|0011.2233.4455|4|2|20|Gi1/0/1"
    ("10|dddd.eeee.ffff|Fa0/2" ++ nl ++ "10|aaaa.0000.0001|Fa0/4") "".

(** An older IOS switch: the primary command parses to no row at all,
    the legacy spelling would list one entry. *)
Definition sw_old : Session :=
  session "sw5" "IOS" "" "" "10|dddd.eeee.ffff|Fa0/2".

Definition connect_fleet (host _ _ _ : string) (_ : option string) : res Session :=
  if String.eqb host "sw1" then Ok sw1
  else if String.eqb host "sw2" then Ok sw2
  else if String.eqb host "sw4" then Ok sw_label
  else if String.eqb host "sw5" then Ok sw_old
  else Raise (ConnectError " timed out ").

Definition fleet (connected : bool) (inventory : list Device) : Script :=
  {| is_connected := connected;
     import_device_list := inventory;
     use_proxy := false;
     proxy_session := "jumpbox";
     prompt_window := "10";
     connect := connect_fleet;
     get_template := fun name => Ok name |}.

(** Section 8, end to end: one device with matches, one without, one
    that cannot be reached. *)
Definition three_devices : Script :=
  fleet false [device "sw1" None; device "sw2" (Some ""); device "sw3" None].

(** A device with a malformed label, followed by a healthy one. *)
Definition label_then_sw1 : Script :=
  fleet false [device "sw4" None; device "sw1" None].

Definition launched_connected : Script :=
  fleet true [device "sw1" None].

Definition run (script : Script) : M unit :=
  script_main Utilities.long_int_name Utilities.textfsm_parse_to_list
    Utilities.expand_number_range script.

Definition work (script : Script) (session : Session) : M (string * list entry) :=
  per_device_work Utilities.long_int_name Utilities.textfsm_parse_to_list
    script session "secret" {[ 10 ]}.

End Sim.

(** ** Further readings of rows, labels and traces *)

(** What the filter needs of a row to get past it: a first field, and,
    when that field is a vlan of the target set, a third one. *)
Definition readable (targets : gset Z) (row : entry) : bool :=
  match row with
  | [] => false
  | vlan_field :: _ =>
      match vlan_of_field vlan_field with
      | Some vlan =>
          if bool_decide (vlan ∈ targets) then Nat.leb 3 (length row) else true
      | None => true
      end
  end.

(** The number a run of decimal digits denotes, leading zeros allowed. *)
Definition decimal (digits : list ascii) : Z :=
  fold_left (fun acc c => 10 * acc + Py.digit_value c) digits 0.

(** How often a trace calls [script.disconnect()] and
    [session.disconnect()]. *)
Definition script_disconnects (t : list event) : nat :=
  count_occ event_eq_dec t EScriptDisconnect.

Definition session_disconnects (t : list event) : nat :=
  count_occ event_eq_dec t ESessionDisconnect.

(** The actions of [script_main] before the report is opened. *)
Definition preliminary (ev : event) : Prop :=
  match ev with
  | EImportDeviceList | EPromptWindow => True
  | _ => False
  end.

(** The two complete conversations of the collector with a session. *)
Definition with_fallback : list event :=
  [EStartCiscoSession; ECommand "show spanning-tree root";
   ECommand "show mac address-table"; fallback_command; EEndCiscoSession].

Definition without_fallback : list event :=
  [EStartCiscoSession; ECommand "show spanning-tree root";
   ECommand "show mac address-table"; EEndCiscoSession].

(** How the collector ends once it has the rows to filter and has done
    [sent]: with the filter's error, or, after leaving automation mode,
    with the matches or with the error that leaving raised. *)
Definition finish (long_int_name : string -> string) (session : Session)
    (vs : gset Z) (ex : gmap Z string) (sent : list event) (rows : list entry)
  : M (string * list entry) :=
  match mac_filter long_int_name vs ex rows with
  | Ok matched =>
      match end_cisco_session session with
      | Ok _ => ((sent ++ [EEndCiscoSession])%list, Ok (hostname session, matched))
      | Raise e => ((sent ++ [EEndCiscoSession])%list, Raise e)
      end
  | Raise e => (sent, Raise e)
  end.

(** The actions on the report file after it was opened. *)
Definition writes_report (ev : event) : Prop :=
  match ev with
  | EWriteReport _ | EFlushReport => True
  | _ => False
  end.
(** * Theorems *)

(** ** The built-ins and the utilities on examples *)

Example int_vlan10 : Py.int "0010" = Ok 10.
Proof. reflexivity. Qed.
Example int_empty : Py.int "" = Raise ValueError.
Proof. reflexivity. Qed.
Example int_header : Py.int "Vlan" = Raise ValueError.
Proof. reflexivity. Qed.
Example split_label : Py.split "N" "VLAN0010" = ["VLA"; "0010"].
Proof. reflexivity. Qed.
Example strip_lower : Py.lower (Py.strip "  Gi1/0/1 ") = "gi1/0/1".
Proof. reflexivity. Qed.

Example long_int_name_short : Utilities.long_int_name "Gi1/0/1" = "gigabitethernet1/0/1".
Proof. reflexivity. Qed.
Example long_int_name_long :
  Utilities.long_int_name " GigabitEthernet1/0/1 " = "gigabitethernet1/0/1".
Proof. reflexivity. Qed.
Example long_int_name_other : Utilities.long_int_name "Fa0/2" = "fa0/2".
Proof. reflexivity. Qed.
Example long_int_name_empty : Utilities.long_int_name "" = "".
Proof. reflexivity. Qed.
Example expand_range :
  Utilities.expand_number_range "1,2,5-7,9" = Ok [1; 2; 5; 6; 7; 9].
Proof. reflexivity. Qed.
Example expand_backwards :
  Utilities.expand_number_range "5-3" = Raise (OtherError "MalformedRangeError").
Proof. reflexivity. Qed.
Example parse_rows :
  Utilities.textfsm_parse_to_list ("10|aa|Gi1" ++ nl ++ "20|bb|Fa2") "t"
  = [["10"; "aa"; "Gi1"]; ["20"; "bb"; "Fa2"]].
Proof. reflexivity. Qed.

(** ** Facts about the built-ins *)

Lemma int_raises_ValueError (s : string) (e : exn) :
  Py.int s = Raise e -> e = ValueError.
Proof.
  unfold Py.int.
  destruct (Py.strip_chars (list_ascii_of_string s)) as [|c l]; simpl.
  - congruence.
  - repeat match goal with
           | |- context [match ?x with _ => _ end] => destruct x
           end; congruence.
Qed.

Lemma index_raises_IndexError {A} (l : list A) (i : nat) (e : exn) :
  Py.index l i = Raise e -> e = IndexError.
Proof. unfold Py.index. destruct (l !! i); congruence. Qed.

Lemma index_lookup {A} (l : list A) (i : nat) (x : A) :
  l !! i = Some x -> Py.index l i = Ok x.
Proof. unfold Py.index. intros ->. reflexivity. Qed.

Lemma index_in_range {A} (l : list A) (i : nat) (x : A) :
  Py.index l i = Ok x -> (i < length l)%nat.
Proof.
  unfold Py.index. destruct (l !! i) eqn:Hl; [|discriminate].
  intros _. eapply lookup_lt_Some, Hl.
Qed.

(** ** The MAC-table filter *)

Section FilterFacts.

Variable long_int_name : string -> string.

Lemma set_results_inputs st r : inputs (set_results st r) = inputs st.
Proof. reflexivity. Qed.

Lemma filter_body_spec st record :
  mac_record record ->
  filter_body long_int_name st record
  = Ok (if kept long_int_name (vlan_set st) (exclude_ports st) record
        then set_results st (results st ++ [record])%list
        else st).
Proof.
  unfold mac_record. intros Hlen.
  destruct record as [|f0 [|f1 [|f2 tl]]]; simpl in Hlen; try lia.
  unfold filter_body, kept, vlan_of_field, uplink_of. simpl.
  destruct (Py.int f0) as [vlan|e] eqn:Hint.
  - destruct (decide (vlan ∈ vlan_set st)) as [Hin|Hout].
    + rewrite bool_decide_eq_true_2 by assumption. simpl.
      destruct (exclude_ports st !! vlan); simpl;
        match goal with |- context [negb ?b] => destruct b end; reflexivity.
    + rewrite bool_decide_eq_false_2 by assumption. reflexivity.
  - apply int_raises_ValueError in Hint. subst e. reflexivity.
Qed.

Lemma filter_loop_spec rows : forall st,
  Forall mac_record rows ->
  filter_loop long_int_name st rows
  = Ok (set_results st
          (results st
             ++ List.filter (kept long_int_name (vlan_set st) (exclude_ports st)) rows)%list).
Proof.
  induction rows as [|record rows IH]; intros st Hrows.
  - simpl. rewrite app_nil_r. destruct st; reflexivity.
  - inversion Hrows as [|? ? Hrec Hrest]; subst.
    simpl filter_loop. rewrite (filter_body_spec _ _ Hrec). simpl rbind.
    destruct (kept long_int_name (vlan_set st) (exclude_ports st) record) eqn:Hk.
    + rewrite (IH _ Hrest). simpl. rewrite Hk. simpl.
      rewrite <- app_assoc. reflexivity.
    + rewrite (IH _ Hrest). simpl. rewrite Hk. reflexivity.
Qed.

Lemma mac_filter_spec vs ex rows :
  Forall mac_record rows ->
  mac_filter long_int_name vs ex rows
  = Ok (List.filter (kept long_int_name vs ex) rows).
Proof.
  intros Hrows. unfold mac_filter, run_filter. simpl.
  rewrite (filter_loop_spec _ _ Hrows). reflexivity.
Qed.

(** The loop only ever writes [results]. *)
Lemma filter_body_inputs st record st' :
  filter_body long_int_name st record = Ok st' -> inputs st' = inputs st.
Proof.
  unfold filter_body. intros H.
  destruct (Py.index record 0) as [f0|]; simpl in H; [|discriminate].
  destruct (Py.int f0) as [vlan|[]]; try discriminate;
    [|injection H as <-; reflexivity].
  destruct (decide (vlan ∈ vlan_set st)); [|injection H as <-; reflexivity].
  destruct (Py.index record 2) as [f2|]; simpl in H; [|discriminate].
  match type of H with context [negb ?b] => destruct b end;
    simpl in H; injection H as <-; reflexivity.
Qed.

Lemma filter_loop_inputs rows : forall st st',
  filter_loop long_int_name st rows = Ok st' -> inputs st' = inputs st.
Proof.
  induction rows as [|record rows IH]; intros st st' H; simpl in H.
  - injection H as <-. reflexivity.
  - destruct (filter_body long_int_name st record) as [st1|] eqn:Hb;
      simpl in H; [|discriminate].
    rewrite (IH _ _ H). eapply filter_body_inputs, Hb.
Qed.

(** The previous value of [results] does not reach the loop. *)
Lemma run_filter_inputs_only st1 st2 :
  inputs st1 = inputs st2 ->
  run_filter long_int_name st1 = run_filter long_int_name st2.
Proof.
  destruct st1, st2. unfold inputs, run_filter, set_results. simpl.
  intros [= -> -> ->]. reflexivity.
Qed.

(** Every row the filter keeps has its three fields. *)
Lemma filter_body_rows st record st' :
  filter_body long_int_name st record = Ok st' ->
  Forall mac_record (results st) -> Forall mac_record (results st').
Proof.
  unfold filter_body. intros H Hst.
  destruct (Py.index record 0) as [f0|]; simpl in H; [|discriminate].
  destruct (Py.int f0) as [vlan|[]]; try discriminate;
    [|injection H as <-; assumption].
  destruct (decide (vlan ∈ vlan_set st)); [|injection H as <-; assumption].
  destruct (Py.index record 2) as [f2|] eqn:H2; simpl in H; [|discriminate].
  match type of H with context [negb ?b] => destruct b end;
    simpl in H; injection H as <-; [assumption|].
  simpl. apply Forall_app. split; [assumption|].
  constructor; [|constructor].
  apply index_in_range in H2. unfold mac_record. lia.
Qed.

Lemma filter_loop_rows rows : forall st st',
  filter_loop long_int_name st rows = Ok st' ->
  Forall mac_record (results st) -> Forall mac_record (results st').
Proof.
  induction rows as [|record rows IH]; intros st st' H Hst; simpl in H.
  - injection H as <-. assumption.
  - destruct (filter_body long_int_name st record) as [st1|] eqn:Hb;
      simpl in H; [|discriminate].
    eapply IH; [exact H|]. eapply filter_body_rows; eassumption.
Qed.

Lemma mac_filter_rows vs ex rows matched :
  mac_filter long_int_name vs ex rows = Ok matched ->
  Forall mac_record matched.
Proof.
  unfold mac_filter, run_filter. simpl. intros H.
  destruct (filter_loop _ _ rows) as [st|] eqn:Hl; simpl in H; [|discriminate].
  injection H as <-. eapply filter_loop_rows; [exact Hl|]. constructor.
Qed.

(** The filter raises nothing but [IndexError]. *)
Lemma filter_body_raises st record e :
  filter_body long_int_name st record = Raise e -> e = IndexError.
Proof.
  unfold filter_body. intros H.
  destruct (Py.index record 0) as [f0|e0] eqn:H0; simpl in H;
    [|injection H as <-; eapply index_raises_IndexError, H0].
  destruct (Py.int f0) as [vlan|e1] eqn:Hi.
  - destruct (decide (vlan ∈ vlan_set st)); [|discriminate].
    destruct (Py.index record 2) as [f2|e2] eqn:H2; simpl in H;
      [|injection H as <-; eapply index_raises_IndexError, H2].
    match type of H with context [negb ?b] => destruct b end; discriminate.
  - apply int_raises_ValueError in Hi. subst e1. discriminate.
Qed.

Lemma filter_loop_raises rows : forall st e,
  filter_loop long_int_name st rows = Raise e -> e = IndexError.
Proof.
  induction rows as [|record rows IH]; intros st e H; simpl in H.
  - discriminate.
  - destruct (filter_body long_int_name st record) as [st1|e1] eqn:Hb; simpl in H.
    + eapply IH, H.
    + injection H as <-. eapply filter_body_raises, Hb.
Qed.

Lemma mac_filter_raises vs ex rows e :
  mac_filter long_int_name vs ex rows = Raise e -> e = IndexError.
Proof.
  unfold mac_filter, run_filter. simpl. intros H.
  destruct (filter_loop _ _ rows) as [st|e1] eqn:Hl; simpl in H; [discriminate|].
  injection H as <-. eapply filter_loop_raises, Hl.
Qed.

End FilterFacts.

(** ** Labels without digits *)

Lemma lstrip_chars_subset l c : In c (Py.lstrip_chars l) -> In c l.
Proof.
  induction l as [|x l IH]; simpl; [tauto|].
  destruct (Py.is_space x); simpl; intros H; [right; auto | exact H].
Qed.

Lemma strip_chars_subset l c : In c (Py.strip_chars l) -> In c l.
Proof.
  unfold Py.strip_chars. intros H.
  apply List.in_rev in H. apply lstrip_chars_subset in H.
  apply List.in_rev in H. apply lstrip_chars_subset in H. exact H.
Qed.

Lemma unsigned_value_no_digit l :
  (forall c, In c l -> Py.is_digit c = false) -> Py.unsigned_value l = None.
Proof.
  destruct l as [|c l]; simpl; [reflexivity|].
  intros H. rewrite (H c) by (left; reflexivity). reflexivity.
Qed.

Lemma int_no_digits s : no_digits s -> Py.int s = Raise ValueError.
Proof.
  unfold no_digits, Py.int. intros H.
  assert (Hs : forall c, In c (Py.strip_chars (list_ascii_of_string s)) ->
                         Py.is_digit c = false)
    by (intros c Hc; apply H, strip_chars_subset, Hc).
  destruct (Py.strip_chars (list_ascii_of_string s)) as [|c l]; [reflexivity|].
  assert (Hl : Py.unsigned_value l = None)
    by (apply unsigned_value_no_digit; intros x Hx; apply Hs; right; exact Hx).
  assert (Hcl : Py.unsigned_value (c :: l) = None)
    by (apply unsigned_value_no_digit; exact Hs).
  rewrite Hl.
  destruct c as [[] [] [] [] [] [] [] []]; try rewrite Hcl; reflexivity.
Qed.

Lemma split_chars_subset sep l : forall cur piece c,
  In piece (Py.split_chars sep cur l) ->
  In c (list_ascii_of_string piece) -> In c cur \/ In c l.
Proof.
  induction l as [|x l IH]; intros cur piece c; simpl.
  - intros [<-|[]]. rewrite list_ascii_of_string_of_list_ascii.
    intros H. left. apply List.in_rev. exact H.
  - destruct (Ascii.eqb x sep).
    + intros [<-|Hp].
      * rewrite list_ascii_of_string_of_list_ascii.
        intros H. left. apply List.in_rev. exact H.
      * intros Hc. destruct (IH _ _ _ Hp Hc) as [[]|H]. right. right. exact H.
    + intros Hp Hc. destruct (IH _ _ _ Hp Hc) as [[->|H]|H]; auto.
  Qed.

Lemma split_no_digits sep s piece :
  no_digits s -> In piece (Py.split sep s) -> no_digits piece.
Proof.
  unfold no_digits, Py.split. intros H Hp c Hc.
  destruct (split_chars_subset _ _ _ _ _ Hp Hc) as [[]|Hin]. apply H, Hin.
Qed.

(** ** The uplink resolver *)

Section ResolverFacts.

Variable long_int_name : string -> string.

Lemma uplink_body_spec m record :
  root_record record ->
  uplink_body long_int_name m record
  = Ok (match contribution long_int_name record with
        | Some (vlan, port) => <[vlan := port]> m
        | None => m
        end).
Proof.
  intros [Hlen (label & H0 & [vlan Hv])].
  destruct record as [|f0 [|f1 [|f2 [|f3 [|f4 [|f5 [|f6 tl]]]]]]];
    simpl in Hlen; try lia.
  simpl in H0. injection H0 as ->.
  unfold uplink_body, contribution. simpl. rewrite Hv.
  unfold label_vlan in Hv.
  destruct (Py.split "N" label) as [|p0 [|digits ps]]; try discriminate.
  simpl. unfold vlan_of_field in Hv.
  destruct (Py.int digits) as [v|]; [|discriminate].
  injection Hv as ->. simpl.
  destruct (Py.truthy (Py.strip (long_int_name f6))); reflexivity.
Qed.

Lemma uplink_loop_spec records : forall m,
  Forall root_record records ->
  exists m', uplink_loop long_int_name m records = Ok m' /\
    forall vlan, m' !! vlan
                 = match last_uplink long_int_name vlan records with
                   | Some port => Some port
                   | None => m !! vlan
                   end.
Proof.
  induction records as [|record records IH]; intros m Hrec.
  - exists m. split; reflexivity.
  - inversion Hrec as [|? ? Hr Hrest]; subst.
    simpl uplink_loop. rewrite (uplink_body_spec _ _ Hr). simpl rbind.
    destruct (IH (match contribution long_int_name record with
                  | Some (vlan, port) => <[vlan := port]> m
                  | None => m
                  end) Hrest) as (m' & Hm' & Hlook).
    exists m'. split; [exact Hm'|].
    intros vlan. rewrite Hlook. simpl.
    destruct (last_uplink long_int_name vlan records); [reflexivity|].
    destruct (contribution long_int_name record) as [[v port]|]; [|reflexivity].
    destruct (decide (v = vlan)) as [->|Hne].
    + apply lookup_insert_eq.
    + apply lookup_insert_ne. exact Hne.
Qed.

Lemma contribution_nonempty record vlan port :
  contribution long_int_name record = Some (vlan, port) -> port <> "".
Proof.
  unfold contribution.
  destruct record as [|f0 [|f1 [|f2 [|f3 [|f4 [|f5 [|f6 tl]]]]]]];
    try discriminate.
  destruct (label_vlan f0); [|discriminate].
  destruct (Py.truthy (Py.strip (long_int_name f6))) eqn:Ht; [|discriminate].
  intros [= <- <-] E. rewrite E in Ht. discriminate.
Qed.

Lemma last_uplink_nonempty records vlan port :
  last_uplink long_int_name vlan records = Some port -> port <> "".
Proof.
  induction records as [|record records IH]; simpl; [discriminate|].
  destruct (last_uplink long_int_name vlan records); [exact IH|].
  destruct (contribution long_int_name record) as [[v p]|] eqn:Hc; [|discriminate].
  destruct (decide (v = vlan)); [|discriminate].
  intros [= <-]. eapply contribution_nonempty, Hc.
Qed.

(** The resolver raises nothing but what indexing and [int] raise. *)
Lemma uplink_body_raises m record e :
  uplink_body long_int_name m record = Raise e ->
  e = ValueError \/ e = IndexError.
Proof.
  unfold uplink_body. intros H.
  destruct (Py.index record 0) as [label|e0] eqn:H0; simpl in H;
    [|injection H as <-; right; eapply index_raises_IndexError, H0].
  destruct (Py.index (Py.split "N" label) 1) as [piece|e1] eqn:H1; simpl in H;
    [|injection H as <-; right; eapply index_raises_IndexError, H1].
  destruct (Py.int piece) as [vlan|e2] eqn:H2; simpl in H;
    [|injection H as <-; left; eapply int_raises_ValueError, H2].
  destruct (Py.index record 6) as [field|e3] eqn:H3; simpl in H;
    [|injection H as <-; right; eapply index_raises_IndexError, H3].
  destruct (Py.truthy _); discriminate.
Qed.

(** A label without digits stops the resolver at its record. *)
Lemma uplink_body_no_digits m record label :
  record !! 0%nat = Some label -> no_digits label ->
  exists e, uplink_body long_int_name m record = Raise e.
Proof.
  intros H0 Hnd. unfold uplink_body.
  rewrite (index_lookup _ _ _ H0). simpl.
  destruct (Py.index (Py.split "N" label) 1) as [piece|e1] eqn:H1; simpl;
    [|eauto].
  assert (Hp : no_digits piece).
  { apply (split_no_digits "N" label); [exact Hnd|].
    unfold Py.index in H1.
    destruct (Py.split "N" label !! 1%nat) as [x|] eqn:Hl; [|discriminate].
    injection H1 as ->. apply list_elem_of_In.
    eapply list_elem_of_lookup_2, Hl. }
  rewrite (int_no_digits _ Hp). simpl. eauto.
Qed.

Lemma uplink_loop_no_digits records : forall m record label,
  In record records -> record !! 0%nat = Some label -> no_digits label ->
  exists e, uplink_loop long_int_name m records = Raise e /\
            (e = ValueError \/ e = IndexError).
Proof.
  induction records as [|r records IH]; intros m record label Hin H0 Hnd;
    [destruct Hin|].
  simpl. destruct (uplink_body long_int_name m r) as [m1|e1] eqn:Hb; simpl.
  - destruct Hin as [->|Hin].
    + destruct (uplink_body_no_digits m _ _ H0 Hnd) as [e He]. congruence.
    + eapply IH; eassumption.
  - exists e1. split; [reflexivity|]. eapply uplink_body_raises, Hb.
Qed.

End ResolverFacts.

(** ** Running computations *)

Lemma events_bind {A B} (m : M A) (f : A -> M B) :
  events (bind m f)
  = (events m ++ match outcome m with
                 | Ok a => events (f a)
                 | Raise _ => []
                 end)%list.
Proof.
  destruct m as [t [a|e]]; unfold bind, events, outcome; simpl.
  - destruct (f a); reflexivity.
  - rewrite app_nil_r. reflexivity.
Qed.

Lemma outcome_bind {A B} (m : M A) (f : A -> M B) :
  outcome (bind m f)
  = match outcome m with
    | Ok a => outcome (f a)
    | Raise e => Raise e
    end.
Proof.
  destruct m as [t [a|e]]; unfold bind, outcome; simpl; [|reflexivity].
  destruct (f a); reflexivity.
Qed.

Lemma events_catch {A} (m : M A) (h : exn -> M A) :
  events (catch m h)
  = (events m ++ match outcome m with
                 | Ok _ => []
                 | Raise e => events (h e)
                 end)%list.
Proof.
  destruct m as [t [a|e]]; unfold catch, events, outcome; simpl.
  - rewrite app_nil_r. reflexivity.
  - destruct (h e); reflexivity.
Qed.

Lemma outcome_catch {A} (m : M A) (h : exn -> M A) :
  outcome (catch m h)
  = match outcome m with
    | Ok a => Ok a
    | Raise e => outcome (h e)
    end.
Proof.
  destruct m as [t [a|e]]; unfold catch, outcome; simpl; [reflexivity|].
  destruct (h e); reflexivity.
Qed.

Lemma M_eta {A} (m : M A) : m = (events m, outcome m).
Proof. destruct m; reflexivity. Qed.

(** ** A calculus of postconditions *)

Lemma post_bind {A B} (m : M A) (f : A -> M B) (Q : list event -> res B -> Prop) :
  post m (fun t r =>
            match r with
            | Ok a => post (f a) (fun t' r' => Q (t ++ t')%list r')
            | Raise e => Q t (Raise e)
            end) ->
  post (bind m f) Q.
Proof.
  unfold post. rewrite events_bind, outcome_bind.
  destruct (outcome m); [tauto|]. rewrite app_nil_r. tauto.
Qed.

Lemma post_call {A} ev (r : res A) (Q : list event -> res A -> Prop) :
  Q [ev] r -> post (call ev r) Q.
Proof. exact id. Qed.

Lemma post_lift {A} (r : res A) (Q : list event -> res A -> Prop) :
  Q [] r -> post (lift r) Q.
Proof. exact id. Qed.

Lemma post_emit ev (Q : list event -> res unit -> Prop) :
  Q [ev] (Ok tt) -> post (emit ev) Q.
Proof. exact id. Qed.

Lemma post_ret {A} (a : A) (Q : list event -> res A -> Prop) :
  Q [] (Ok a) -> post (ret a) Q.
Proof. exact id. Qed.

Lemma post_raise {A} e (Q : list event -> res A -> Prop) :
  Q [] (Raise e) -> post (raise e) Q.
Proof. exact id. Qed.

(** One step of a computation: split a sequence, or take the result of the
    next call both ways. *)
Ltac stage :=
  lazymatch goal with
  | |- post (bind _ _) _ => apply post_bind
  | |- post (if ?c then _ else _) _ =>
      let E := fresh "Hif" in destruct c eqn:E
  | |- post (call _ ?r) _ =>
      let E := fresh "Hcall" in
      destruct r as [?|?] eqn:E; apply post_call; cbv beta iota
  | |- post (lift ?r) _ =>
      let E := fresh "Hlift" in
      destruct r as [?|?] eqn:E; apply post_lift; cbv beta iota
  | |- post (emit _) _ => apply post_emit; cbv beta iota
  | |- post (ret _) _ => apply post_ret; cbv beta iota
  | |- post (raise _) _ => apply post_raise; cbv beta iota
  end.

(** ** The per-device collector *)

Section CollectorFacts.

Variable long_int_name : string -> string.
Variable textfsm_parse_to_list : string -> template -> list entry.
Variable script : Script.

Abbreviation per_device_work :=
  (per_device_work long_int_name textfsm_parse_to_list script).

Ltac bracket :=
  lazymatch goal with
  | |- bracketed [_; ?a; ?b; _] =>
      exists [a; b]; split; [reflexivity | repeat constructor]
  | |- bracketed [_; ?a; ?b; ?c; _] =>
      exists [a; b; c]; split; [reflexivity | repeat constructor]
  end.

Ltac absent :=
  let H := fresh in
  intros H; cbn in H; unfold fallback_command in H;
  repeat (destruct H as [H|H]; try discriminate H); try contradiction.

(** The shape of every run of the collector. *)
Lemma per_device_work_post session enable vs :
  post (per_device_work session enable vs) (fun t r =>
    Forall session_event t /\
    (count_occ event_eq_dec t fallback_command <= 1)%nat /\
    match r with
    | Ok (h, rows) =>
        bracketed t /\ h = hostname session /\ Forall mac_record rows
        /\ start_cisco_session session = Ok tt
    | Raise e =>
        end_cisco_session session = Ok tt -> ~ In EEndCiscoSession t
    end).
Proof.
  unfold per_device_work.
  repeat stage; cbn [app];
    (split; [repeat constructor | split; [vm_compute; lia|]]);
    try (intros Hend; first [discriminate Hend | clear Hend; solve [absent]]).
  all: repeat match goal with u : unit |- _ => destruct u end.
  all: split; [bracket | split; [reflexivity | split; [|reflexivity]]].
  all: eapply mac_filter_rows; eassumption.
Qed.

(** The fallback command is sent only to an IOS device whose primary
    MAC-table output parsed to exactly one row. *)
Lemma per_device_work_fallback session enable vs :
  post (per_device_work session enable vs) (fun t _ =>
    In fallback_command t ->
    os session = "IOS" /\
    exists raw tpl,
      get_command_output session "show mac address-table" = Ok raw
      /\ length (textfsm_parse_to_list raw tpl) = 1%nat).
Proof.
  unfold per_device_work.
  repeat stage; cbn [app]; try solve [absent].
  all: intros _;
    match goal with
    | H : (_ && _)%bool = true |- _ =>
        apply andb_prop in H; destruct H as [Hos Hlen]
    end;
    (split; [apply String.eqb_eq, Hos|]);
    eexists _, _; (split; [reflexivity|]); apply Nat.eqb_eq, Hlen.
Qed.

End CollectorFacts.

(** ** Strings and traces *)

Lemma string_app_cons (x : ascii) (a s : string) :
  String x a ++ s = String x (a ++ s).
Proof. reflexivity. Qed.

Lemma string_app_assoc (a b c : string) : (a ++ b) ++ c = a ++ b ++ c.
Proof.
  induction a as [|x a IH]; [reflexivity|].
  rewrite !string_app_cons, IH. reflexivity.
Qed.

Lemma string_app_empty (a : string) : a ++ "" = a.
Proof.
  induction a as [|x a IH]; [reflexivity|].
  rewrite string_app_cons, IH. reflexivity.
Qed.

Lemma string_app_length (a b : string) :
  String.length (a ++ b) = (String.length a + String.length b)%nat.
Proof.
  induction a as [|x a IH]; [reflexivity|].
  rewrite string_app_cons. simpl. rewrite IH. reflexivity.
Qed.

Lemma spaces_length (n : Z) : String.length (Py.spaces n) = Z.to_nat n.
Proof.
  unfold Py.spaces. induction (Z.to_nat n) as [|k IH]; simpl;
    [reflexivity | rewrite IH; reflexivity].
Qed.

(** A left-justified field fills its column and is never cut. *)
Lemma ljust_length (width : Z) (s : string) :
  Py.len (ljust width s) = Z.max width (Py.len s).
Proof.
  unfold ljust, Py.len. rewrite string_app_length, spaces_length. lia.
Qed.

Lemma report_text_app (t1 t2 : list event) :
  report_text (t1 ++ t2) = report_text t1 ++ report_text t2.
Proof.
  induction t1 as [|ev t1 IH]; simpl; [reflexivity|].
  destruct ev; try exact IH. rewrite IH, string_app_assoc. reflexivity.
Qed.

Lemma log_lines_app (t1 t2 : list event) :
  log_lines (t1 ++ t2) = (log_lines t1 ++ log_lines t2)%list.
Proof. apply flat_map_app. Qed.

Lemma connects_app (t1 t2 : list event) :
  connects (t1 ++ t2) = (connects t1 ++ connects t2)%list.
Proof. apply flat_map_app. Qed.

Lemma session_events_silent (t : list event) :
  Forall session_event t ->
  report_text t = "" /\ log_lines t = [] /\ connects t = [].
Proof.
  induction 1 as [|ev t Hev _ (IH1 & IH2 & IH3)]; [repeat split|].
  destruct ev; try contradiction; simpl; repeat split; assumption.
Qed.

(** Runs a computation as far as its results are known. *)
Ltac run :=
  repeat (progress (rewrite ?events_bind, ?outcome_bind;
                    cbn [events outcome call lift emit ret raise fst snd])).

(** ** The batch loop *)

Section LoopFacts.

Variable long_int_name : string -> string.
Variable textfsm_parse_to_list : string -> template -> list entry.
Variable script : Script.

Abbreviation collect := (collect long_int_name textfsm_parse_to_list script).
Abbreviation device_attempt :=
  (device_attempt long_int_name textfsm_parse_to_list script).
Abbreviation device_step :=
  (device_step long_int_name textfsm_parse_to_list script).
Abbreviation device_loop :=
  (device_loop long_int_name textfsm_parse_to_list script).
Abbreviation device_report :=
  (device_report long_int_name textfsm_parse_to_list script).
Abbreviation device_failure :=
  (device_failure long_int_name textfsm_parse_to_list script).
Abbreviation survives :=
  (survives long_int_name textfsm_parse_to_list script).

(** Connecting comes first, with the resolved proxy; the rest is the
    collector's. *)
Lemma collect_post vs device :
  exists t,
    events (collect vs device)
    = EConnect (Hostname device) (resolve_proxy script device) :: t
    /\ Forall session_event t
    /\ match outcome (collect vs device) with
       | Ok (_, rows) => Forall mac_record rows
       | Raise _ => True
       end.
Proof.
  unfold collect. rewrite events_bind, outcome_bind.
  cbn [events outcome call fst snd app].
  destruct (connect script _ _ _ _ _) as [session|e].
  - pose proof (per_device_work_post long_int_name textfsm_parse_to_list
                  script session (Enable device) vs) as H.
    unfold post in H. destruct H as (Hev & _ & Hr).
    eexists. split; [reflexivity|]. split; [exact Hev|].
    destruct (outcome _) as [[h rows]|]; [|exact I]. apply Hr.
  - exists []. repeat split. constructor.
Qed.

Lemma format_row_text row :
  mac_record row -> exists line, format_row row = Ok line /\ line ++ nl = row_text row.
Proof.
  unfold mac_record. intros Hlen.
  destruct row as [|f0 [|f1 [|f2 tl]]]; simpl in Hlen; try lia.
  exists (f0 ++ Py.spaces (8 - Py.len f0) ++ f1 ++ Py.spaces (20 - Py.len f1) ++ f2).
  split; [reflexivity|]. unfold row_text, ljust.
  rewrite !string_app_assoc. reflexivity.
Qed.

Lemma write_rows_text rows :
  Forall mac_record rows ->
  outcome (write_rows rows) = Ok tt
  /\ report_text (events (write_rows rows)) = rows_text rows
  /\ log_lines (events (write_rows rows)) = []
  /\ connects (events (write_rows rows)) = [].
Proof.
  induction 1 as [|row rows Hrow _ (IH1 & IH2 & IH3 & IH4)]; [repeat split|].
  destruct (format_row_text _ Hrow) as (line & Hline & Htext).
  cbn [write_rows]. rewrite Hline. run. rewrite IH1. cbn [app]. repeat split.
  - cbn [report_text rows_text fold_right]. fold (rows_text rows).
    rewrite IH2, Htext. reflexivity.
  - cbn [log_lines flat_map app]. exact IH3.
  - cbn [connects flat_map app]. exact IH4.
Qed.

Lemma write_section_text hostname rows :
  Forall mac_record rows ->
  outcome (write_section hostname rows) = Ok tt
  /\ report_text (events (write_section hostname rows)) = section_text hostname rows
  /\ log_lines (events (write_section hostname rows)) = []
  /\ connects (events (write_section hostname rows)) = []
  /\ exists t, events (write_section hostname rows) = (t ++ [EFlushReport])%list.
Proof.
  intros Hrows. destruct (write_rows_text _ Hrows) as (H1 & H2 & H3 & H4).
  unfold write_section. run. rewrite H1. run.
  repeat split.
  - cbn [app report_text]. rewrite report_text_app, H2.
    cbn [report_text]. unfold section_text.
    rewrite !string_app_assoc, string_app_empty. reflexivity.
  - cbn [app]. unfold log_lines in *. cbn [flat_map app].
    rewrite flat_map_app, H3. reflexivity.
  - cbn [app]. unfold connects in *. cbn [flat_map app].
    rewrite flat_map_app, H4. reflexivity.
  - eexists ([_] ++ [_] ++ events (write_rows rows) ++ [_])%list.
    rewrite <- !app_assoc. reflexivity.
Qed.

Lemma device_attempt_facts vs device :
  outcome (device_attempt vs device)
  = match outcome (collect vs device) with
    | Ok _ => Ok tt
    | Raise e => Raise e
    end
  /\ report_text (events (device_attempt vs device)) = device_report vs device
  /\ log_lines (events (device_attempt vs device)) = []
  /\ connects (events (device_attempt vs device)) = [Hostname device]
  /\ (forall h row rows,
        outcome (collect vs device) = Ok (h, row :: rows) ->
        exists t, events (device_attempt vs device) = (t ++ [EFlushReport])%list).
Proof.
  destruct (collect_post vs device) as (t & Hev & Hsess & Hrows).
  destruct (session_events_silent _ Hsess) as (Hr0 & Hl0 & Hc0).
  remember (EConnect (Hostname device) (resolve_proxy script device) :: t) as c.
  assert (Hr : report_text c = "") by (subst c; exact Hr0).
  assert (Hl : log_lines c = []) by (subst c; exact Hl0).
  assert (Hc : connects c = [Hostname device])
    by (subst c; unfold connects in *; cbn [flat_map]; rewrite Hc0; reflexivity).
  clear Heqc Hr0 Hl0 Hc0 Hsess.
  unfold device_attempt, device_report.
  rewrite events_bind, outcome_bind, Hev.
  destruct (outcome (collect vs device)) as [[h [|row rows]]|e].
  - run. rewrite !report_text_app, !log_lines_app, !connects_app, Hr, Hl, Hc.
    repeat split. intros ? ? ? [=].
  - destruct (write_section_text h (row :: rows) Hrows)
      as (W1 & W2 & W3 & W4 & (w & W5)).
    run. rewrite !report_text_app, !log_lines_app, !connects_app.
    rewrite Hr, Hl, Hc, W1, W2, W3, W4. repeat split.
    intros _ _ _ _. rewrite W5.
    exists (c ++ [EScriptDisconnect] ++ w)%list.
    rewrite <- !app_assoc. reflexivity.
  - rewrite app_nil_r, Hr, Hl, Hc. repeat split. intros ? ? ? [=].
Qed.

Lemma recoverable_dec e : recoverable e \/ ~ recoverable e.
Proof. destruct e; simpl; tauto. Qed.

Lemma failure_handler_recoverable device e :
  recoverable e ->
  failure_handler device e
  = ((ELogAppend <$> failure_line (Hostname device) e) ++ [ESessionDisconnect],
     Ok tt)%list.
Proof. destruct e; try contradiction; intros _; reflexivity. Qed.

Lemma failure_handler_other device e :
  ~ recoverable e -> failure_handler device e = ([], Raise e).
Proof. destruct e; simpl; intros H; try reflexivity; destruct H; exact I. Qed.

Lemma failure_line_one hostname e :
  recoverable e -> exists line, failure_line hostname e = [line].
Proof. destruct e; try contradiction; intros _; eexists; reflexivity. Qed.

Lemma device_step_facts vs device :
  report_text (events (device_step vs device)) = device_report vs device
  /\ connects (events (device_step vs device)) = [Hostname device]
  /\ (survives vs device ->
      outcome (device_step vs device) = Ok tt
      /\ log_lines (events (device_step vs device)) = device_failure vs device)
  /\ (forall e, outcome (collect vs device) = Raise e -> ~ recoverable e ->
      outcome (device_step vs device) = Raise e
      /\ log_lines (events (device_step vs device)) = []).
Proof.
  destruct (device_attempt_facts vs device) as (Ho & Hr & Hl & Hc & _).
  unfold device_step, survives, device_failure.
  rewrite events_catch, outcome_catch, Ho.
  destruct (outcome (collect vs device)) as [r|e].
  - rewrite app_nil_r. repeat split; try assumption; congruence.
  - destruct (recoverable_dec e) as [Hrec|Hrec].
    + rewrite (failure_handler_recoverable _ _ Hrec).
      cbn [events outcome fst snd].
      rewrite report_text_app, connects_app, log_lines_app, Hr, Hc, Hl.
      destruct (failure_line_one (Hostname device) e Hrec) as [line ->].
      cbn. rewrite string_app_empty. repeat split; try congruence.
    + rewrite (failure_handler_other _ _ Hrec).
      cbn [events outcome fst snd]. rewrite !app_nil_r.
      repeat split; try assumption; try contradiction; congruence.
Qed.

(** When every device survives, the loop runs over the whole inventory. *)
Lemma device_loop_facts vs devices :
  Forall (survives vs) devices ->
  outcome (device_loop vs devices) = Ok tt
  /\ report_text (events (device_loop vs devices))
     = report_body long_int_name textfsm_parse_to_list script vs devices
  /\ log_lines (events (device_loop vs devices))
     = flat_map (device_failure vs) devices
  /\ connects (events (device_loop vs devices)) = map Hostname devices.
Proof.
  induction 1 as [|device devices Hd _ (IH1 & IH2 & IH3 & IH4)]; [repeat split|].
  destruct (device_step_facts vs device) as (Hr & Hc & Hs & _).
  destruct (Hs Hd) as (Ho & Hl).
  cbn [device_loop]. rewrite events_bind, outcome_bind, Ho.
  rewrite report_text_app, log_lines_app, connects_app, Hr, Hc, Hl, IH1, IH2, IH3, IH4.
  repeat split.
Qed.

(** A failure the handlers do not name ends the loop at its device. *)
Lemma device_loop_aborts vs device devices e :
  outcome (collect vs device) = Raise e -> ~ recoverable e ->
  outcome (device_loop vs (device :: devices)) = Raise e
  /\ log_lines (events (device_loop vs (device :: devices))) = []
  /\ connects (events (device_loop vs (device :: devices))) = [Hostname device].
Proof.
  intros He Hn.
  destruct (device_step_facts vs device) as (_ & Hc & _ & Ha).
  destruct (Ha e He Hn) as (Ho & Hl).
  cbn [device_loop]. rewrite events_bind, outcome_bind, Ho.
  rewrite app_nil_r. repeat split; assumption.
Qed.

End LoopFacts.

(** ** A malformed label, from the resolver up to the loop *)

Section LabelFacts.

Variable long_int_name : string -> string.
Variable textfsm_parse_to_list : string -> template -> list entry.
Variable script : Script.

Lemma per_device_work_bad_label session enable vs tpl raw record label :
  start_cisco_session session = Ok tt ->
  get_template script "cisco_os_show_spanning-tree_root.template" = Ok tpl ->
  get_command_output session "show spanning-tree root" = Ok raw ->
  In record (textfsm_parse_to_list raw tpl) ->
  record !! 0%nat = Some label -> no_digits label ->
  exists e, (e = ValueError \/ e = IndexError)
    /\ uplink_resolver long_int_name (textfsm_parse_to_list raw tpl) = Raise e
    /\ per_device_work long_int_name textfsm_parse_to_list script
         session enable vs
       = ([EStartCiscoSession; ECommand "show spanning-tree root"], Raise e).
Proof.
  intros Hstart Htpl Hraw Hin H0 Hnd.
  destruct (uplink_loop_no_digits long_int_name _ ∅ _ _ Hin H0 Hnd)
    as (e & He & Hkind).
  exists e. split; [exact Hkind|]. split; [exact He|].
  rewrite (M_eta (per_device_work _ _ _ _ _ _)).
  unfold per_device_work.
  rewrite Hstart. run.
  assert (Hsame : (if String.eqb (os session) "IOS"
                   then get_template script "cisco_os_show_spanning-tree_root.template"
                   else get_template script "cisco_os_show_spanning-tree_root.template")
                  = Ok tpl) by (destruct (String.eqb _ _); exact Htpl).
  rewrite Hsame. run. rewrite Hraw. run.
  unfold uplink_resolver in He. unfold uplink_resolver. rewrite He. run.
  reflexivity.
Qed.

Lemma script_main_runs_loop expand_number_range numbers device devices :
  is_connected script = false ->
  import_device_list script = device :: devices ->
  Py.truthy (prompt_window script) = true ->
  expand_number_range (prompt_window script) = Ok numbers ->
  script_main long_int_name textfsm_parse_to_list expand_number_range script
  = ([EImportDeviceList; EPromptWindow; EOpenReport;
      EWriteReport (report_header (prompt_window script))]
       ++ events (device_loop long_int_name textfsm_parse_to_list script
                    (list_to_set numbers) (device :: devices)),
     outcome (device_loop long_int_name textfsm_parse_to_list script
                (list_to_set numbers) (device :: devices)))%list.
Proof.
  intros Hc Hi Hp He.
  rewrite (M_eta (script_main _ _ _ _)).
  unfold script_main. rewrite Hc. run. rewrite Hi. run. rewrite Hp.
  cbn [negb]. run. rewrite He. run. reflexivity.
Qed.


End LabelFacts.

(** * The claims *)

(** ** The MAC-table filter (C4, C8) *)

Lemma target_10 : bool_decide (10 ∈ ({[ 10 ]} : gset Z)) = true.
Proof. apply bool_decide_eq_true_2. set_solver. Qed.

(** C4 (as the code has it): on MAC-table records (vlan, mac, interface,
    ...), the filter returns exactly the records, as they came and in
    their order, whose vlan-field is an integer of the target set and
    whose interface, normalized and in lower case, differs from the uplink
    of that vlan, an absent uplink being the empty string; a record whose
    vlan-field is not a number is skipped without an error. With an absent
    uplink a record of a target vlan is kept exactly when its normalized
    interface is not empty: the absent uplink excludes the records with an
    empty normalized interface, and only those. For target
    set {10}, uplink map {10: gigabitethernet1/0/1} and the three records
    of the example, the result is the one record on Fa0/2, for every
    normalizer that takes Gi1/0/1 to the uplink's name and Fa0/2 to
    another one. *)
Theorem C4_mac_filter_keeps
    (long_int_name : string -> string) (targets : gset Z)
    (uplinks : gmap Z string) (rows : list entry) :
  Forall mac_record rows ->
  mac_filter long_int_name targets uplinks rows
  = Ok (List.filter (kept long_int_name targets uplinks) rows)
  /\ (forall vlan_field mac interface_field rest vlan,
        Py.int vlan_field = Ok vlan -> vlan ∈ targets ->
        uplinks !! vlan = None ->
        (kept long_int_name targets uplinks
           (vlan_field :: mac :: interface_field :: rest) = true
         <-> Py.lower (long_int_name interface_field) <> ""))
  /\ (forall vlan_field mac interface_field rest e,
        Py.int vlan_field = Raise e ->
        kept long_int_name targets uplinks
          (vlan_field :: mac :: interface_field :: rest) = false)
  /\ (Py.lower (long_int_name "Gi1/0/1") = "gigabitethernet1/0/1" ->
      Py.lower (long_int_name "Fa0/2") <> "gigabitethernet1/0/1" ->
      mac_filter long_int_name {[ 10 ]} {[ 10 := "gigabitethernet1/0/1" ]}
        [ ["10"; "aaaa.bbbb.cccc"; "Gi1/0/1"];
          ["10"; "dddd.eeee.ffff"; "Fa0/2"];
          ["20"; "1111.2222.3333"; "Fa0/3"] ]
      = Ok [ ["10"; "dddd.eeee.ffff"; "Fa0/2"] ]).
Proof.
  intros Hrows. split; [apply mac_filter_spec, Hrows|]. split; [|split].
  - intros vlan_field mac interface_field rest vlan Hint Hin Hnone.
    unfold kept, vlan_of_field, uplink_of. rewrite Hint, Hnone.
    rewrite bool_decide_eq_true_2 by exact Hin. simpl.
    rewrite negb_true_iff. apply String.eqb_neq.
  - intros vlan_field mac interface_field rest e Hint.
    unfold kept, vlan_of_field. rewrite Hint. reflexivity.
  - intros Hgi Hfa.
    rewrite mac_filter_spec by (repeat constructor; unfold mac_record; simpl; lia).
    assert (Hup : Py.lower (Py.strip (uplink_of {[ 10 := "gigabitethernet1/0/1" ]} 10))
                  = "gigabitethernet1/0/1").
    { unfold uplink_of. rewrite lookup_singleton_eq. reflexivity. }
    assert (H10 : vlan_of_field "10" = Some 10) by reflexivity.
    assert (H20 : vlan_of_field "20" = Some 20) by reflexivity.
    cbn [List.filter kept]. rewrite H10, H20, Hup, Hgi, target_10.
    rewrite bool_decide_eq_false_2 by set_solver.
    rewrite String.eqb_refl.
    apply String.eqb_neq in Hfa. rewrite Hfa. reflexivity.
Qed.

Lemma C4_mac_filter_keeps_example :
  Forall mac_record
    [ ["10"; "aaaa.bbbb.cccc"; "Gi1/0/1"];
      ["10"; "dddd.eeee.ffff"; "Fa0/2"];
      ["20"; "1111.2222.3333"; "Fa0/3"] ]
  /\ mac_filter Utilities.long_int_name {[ 10 ]} {[ 10 := "gigabitethernet1/0/1" ]}
       [ ["10"; "aaaa.bbbb.cccc"; "Gi1/0/1"];
         ["10"; "dddd.eeee.ffff"; "Fa0/2"];
         ["20"; "1111.2222.3333"; "Fa0/3"] ]
     = Ok [ ["10"; "dddd.eeee.ffff"; "Fa0/2"] ].
Proof.
  assert (H : Forall mac_record
                [ ["10"; "aaaa.bbbb.cccc"; "Gi1/0/1"];
                  ["10"; "dddd.eeee.ffff"; "Fa0/2"];
                  ["20"; "1111.2222.3333"; "Fa0/3"] ])
    by (repeat constructor; unfold mac_record; simpl; lia).
  split; [exact H|].
  apply (C4_mac_filter_keeps Utilities.long_int_name {[ 10 ]}
           {[ 10 := "gigabitethernet1/0/1" ]} _ H).
  - reflexivity.
  - discriminate.
Defined.

(** C4, as the specification states it, fails on a record whose interface
    field is empty: its vlan is in the target set and the uplink map has
    no uplink for it, yet the record is dropped, because the absent uplink
    and the empty interface are both the empty string. *)
Lemma C4_absent_uplink_drops_empty_interface :
  Py.int "10" = Ok 10
  /\ (∅ : gmap Z string) !! 10 = None
  /\ mac_filter Utilities.long_int_name {[ 10 ]} ∅
       [ ["10"; "aaaa.bbbb.cccc"; ""] ] = Ok []
  /\ mac_filter (fun int_name => int_name) {[ 10 ]} ∅
       [ ["10"; "aaaa.bbbb.cccc"; ""] ] = Ok [].
Proof. vm_compute. repeat split. Qed.

(** C8: the filter has no hidden state and writes none of its inputs:
    two runs from the same target set, uplink map and records end the same
    way, whatever [results] held before; after a run the three inputs are
    what they were, and a second run on them gives the same result again. *)
Theorem C8_filter_no_hidden_state
    (long_int_name : string -> string) (st1 st2 : filter_vars) :
  inputs st1 = inputs st2 ->
  run_filter long_int_name st1 = run_filter long_int_name st2
  /\ forall st', run_filter long_int_name st1 = Ok st' ->
       inputs st' = inputs st1
       /\ run_filter long_int_name st' = Ok st'.
Proof.
  intros Hin. split; [apply run_filter_inputs_only, Hin|].
  intros st' Hrun.
  assert (Hsame : inputs st' = inputs st1).
  { unfold run_filter in Hrun. apply filter_loop_inputs in Hrun.
    rewrite Hrun. apply set_results_inputs. }
  split; [exact Hsame|].
  rewrite (run_filter_inputs_only long_int_name st' st1 Hsame). exact Hrun.
Qed.

Lemma C8_filter_no_hidden_state_example :
  let st := {| vlan_set := {[ 10 ]};
               exclude_ports := {[ 10 := "gigabitethernet1/0/1" ]};
               fsm_results := [ ["10"; "aaaa.bbbb.cccc"; "Gi1/0/1"];
                                ["10"; "dddd.eeee.ffff"; "Fa0/2"] ];
               results := [] |} in
  inputs (set_results st [ ["stale"] ]) = inputs st
  /\ run_filter Utilities.long_int_name (set_results st [ ["stale"] ])
     = run_filter Utilities.long_int_name st.
Proof.
  intros st. split; [reflexivity|].
  apply (C8_filter_no_hidden_state Utilities.long_int_name
           (set_results st [ ["stale"] ]) st).
  reflexivity.
Defined.

(** ** The uplink resolver on a label without digits *)

Lemma no_digits_VLAN : no_digits "VLAN".
Proof.
  intros c Hc. simpl in Hc.
  repeat (destruct Hc as [<-|Hc]; [reflexivity|]). destruct Hc.
Qed.

(** C5, as the specification states it, fails on a device whose
    spanning-tree output has the label VLAN: the resolver raises
    [ValueError] instead of skipping the record, the processing of the
    device ends there, and the run ends with the same error before the
    next device of the inventory is contacted. *)
Lemma C5_label_error_is_not_scoped :
  uplink_resolver Utilities.long_int_name
    [ ["VLAN"; "32778"; "0011.2233.4455"; "4"; "2"; "20"; "Gi1/0/1"];
      ["VLAN0010"; "32778"; "0011.2233.4455"; "4"; "2"; "20"; "Gi1/0/1"] ]
  = Raise ValueError
  /\ outcome (Sim.work Sim.label_then_sw1 Sim.sw_label) = Raise ValueError
  /\ outcome (Sim.run Sim.label_then_sw1) = Raise ValueError
  /\ connects (events (Sim.run Sim.label_then_sw1)) = ["sw4"].
Proof. vm_compute. repeat split. Qed.

(** ** The collector (C2, C3) *)




(** The fallback command is sent at most once, and only to an IOS device
    whose primary MAC-table output parsed to exactly one record; in
    particular not when it parsed to none. *)
Lemma fallback_needs_one_record
    (long_int_name : string -> string)
    (textfsm_parse_to_list : string -> template -> list entry)
    (script : Script) (session : Session) (enable : string) (vs : gset Z) :
  (count_occ event_eq_dec
     (events (per_device_work long_int_name textfsm_parse_to_list script
                session enable vs))
     fallback_command <= 1)%nat
  /\ (In fallback_command
        (events (per_device_work long_int_name textfsm_parse_to_list script
                   session enable vs)) ->
      os session = "IOS"
      /\ exists raw tpl,
           get_command_output session "show mac address-table" = Ok raw
           /\ length (textfsm_parse_to_list raw tpl) = 1%nat).
Proof.
  split.
  - pose proof (per_device_work_post long_int_name textfsm_parse_to_list script
                  session enable vs) as H.
    unfold post in H. apply H.
  - exact (per_device_work_fallback long_int_name textfsm_parse_to_list script
             session enable vs).
Qed.

Lemma fallback_needs_one_record_example :
  In fallback_command
    (events (per_device_work Utilities.long_int_name
               Utilities.textfsm_parse_to_list Sim.three_devices
               (Sim.session "sw6" "IOS" "" "10|dddd.eeee.ffff|Fa0/2" "")
               "secret" {[ 10 ]}))
  /\ os (Sim.session "sw6" "IOS" "" "10|dddd.eeee.ffff|Fa0/2" "") = "IOS".
Proof.
  assert (H : In fallback_command
                (events (per_device_work Utilities.long_int_name
                           Utilities.textfsm_parse_to_list Sim.three_devices
                           (Sim.session "sw6" "IOS" "" "10|dddd.eeee.ffff|Fa0/2" "")
                           "secret" {[ 10 ]})))
    by (vm_compute; tauto).
  split; [exact H|].
  apply (fallback_needs_one_record Utilities.long_int_name
           Utilities.textfsm_parse_to_list Sim.three_devices
           (Sim.session "sw6" "IOS" "" "10|dddd.eeee.ffff|Fa0/2" "")
           "secret" {[ 10 ]}).
  exact H.
Defined.

(** C3, at the input where the code departs from it: an IOS device whose
    primary MAC-table command parses to no record at all is sent no
    fallback command, although the legacy spelling would have listed an
    entry of the target vlan; the collector returns an empty result. *)
Theorem C3_empty_table_gets_no_fallback :
  os Sim.sw_old = "IOS"
  /\ Utilities.textfsm_parse_to_list "" "cisco_ios_show_mac_addr_table.template" = []
  /\ Sim.work Sim.three_devices Sim.sw_old
     = ([EStartCiscoSession; ECommand "show spanning-tree root";
         ECommand "show mac address-table"; EEndCiscoSession],
        Ok ("sw5", []))
  /\ ~ In fallback_command (events (Sim.work Sim.three_devices Sim.sw_old)).
Proof.
  vm_compute. repeat split. intros [H|[H|[H|[H|[]]]]]; discriminate H.
Qed.

(** ** The batch loop (C1, C6, C9, C10) *)

(** C1 (as the code has it): over an inventory in which the processing of
    every device succeeds or fails with a connect failure, an interaction
    failure or an unsupported OS, the loop ends normally after calling
    connect for every device, in order, and the failure log received, in
    order, exactly one line for each device that failed and none for the
    others. *)
Theorem C1_loop_survives_recorded_failures
    (long_int_name : string -> string)
    (textfsm_parse_to_list : string -> template -> list entry)
    (script : Script) (vs : gset Z) (devices : list Device) :
  Forall (survives long_int_name textfsm_parse_to_list script vs) devices ->
  outcome (device_loop long_int_name textfsm_parse_to_list script vs devices)
  = Ok tt
  /\ connects (events (device_loop long_int_name textfsm_parse_to_list script
                         vs devices))
     = map Hostname devices
  /\ log_lines (events (device_loop long_int_name textfsm_parse_to_list script
                          vs devices))
     = flat_map (device_failure long_int_name textfsm_parse_to_list script vs)
         devices
  /\ forall device, In device devices ->
       match outcome (collect long_int_name textfsm_parse_to_list script vs device) with
       | Ok _ =>
           device_failure long_int_name textfsm_parse_to_list script vs device = []
       | Raise e =>
           recoverable e
           /\ exists line,
                device_failure long_int_name textfsm_parse_to_list script vs device
                = [line]
                /\ log_lines (events (device_step long_int_name
                                        textfsm_parse_to_list script vs device))
                   = [line]
       end.
Proof.
  intros Hall.
  destruct (device_loop_facts long_int_name textfsm_parse_to_list script vs
              devices Hall) as (Ho & _ & Hl & Hc).
  repeat (split; [assumption|]).
  intros device Hin.
  assert (Hs : survives long_int_name textfsm_parse_to_list script vs device).
  { rewrite List.Forall_forall in Hall. apply Hall, Hin. }
  destruct (device_step_facts long_int_name textfsm_parse_to_list script vs device)
    as (_ & _ & Hstep & _).
  destruct (Hstep Hs) as (_ & Hlog).
  unfold survives in Hs. unfold device_failure in *.
  destruct (outcome (collect long_int_name textfsm_parse_to_list script vs device))
    as [r|e]; [reflexivity|].
  split; [exact Hs|].
  destruct (failure_line_one (Hostname device) e Hs) as [line Hline].
  exists line. rewrite Hlog. split; exact Hline.
Qed.

Lemma C1_loop_survives_recorded_failures_example :
  Forall (survives Utilities.long_int_name Utilities.textfsm_parse_to_list
            Sim.three_devices {[ 10 ]})
    (import_device_list Sim.three_devices)
  /\ outcome (device_loop Utilities.long_int_name Utilities.textfsm_parse_to_list
                Sim.three_devices {[ 10 ]} (import_device_list Sim.three_devices))
     = Ok tt.
Proof.
  assert (H : Forall (survives Utilities.long_int_name
                        Utilities.textfsm_parse_to_list Sim.three_devices {[ 10 ]})
                (import_device_list Sim.three_devices))
    by (repeat constructor).
  split; [exact H|].
  apply (C1_loop_survives_recorded_failures Utilities.long_int_name
           Utilities.textfsm_parse_to_list Sim.three_devices {[ 10 ]} _ H).
Defined.

(** C1, as the specification states it, fails on an internal data error:
    with a device whose spanning-tree output has the label VLAN, the run
    ends with [ValueError], nothing is appended to the failure log, and
    the next device of the inventory is never contacted. *)
Lemma C1_data_error_ends_the_batch :
  map Hostname (import_device_list Sim.label_then_sw1) = ["sw4"; "sw1"]
  /\ outcome (Sim.run Sim.label_then_sw1) = Raise ValueError
  /\ log_lines (events (Sim.run Sim.label_then_sw1)) = []
  /\ ~ In "sw1" (connects (events (Sim.run Sim.label_then_sw1))).
Proof.
  vm_compute. repeat split. intros [H|[]]. discriminate H.
Qed.



(** C9: launched in a connected tab, [script_main] raises [ScriptError]
    and has done nothing before: the inventory is not loaded, the operator
    is not prompted, no file is opened or written, no device is
    contacted. *)
Theorem C9_connected_tab_stops_first
    (long_int_name : string -> string)
    (textfsm_parse_to_list : string -> template -> list entry)
    (expand_number_range : string -> res (list Z)) (script : Script) :
  is_connected script = true ->
  events (script_main long_int_name textfsm_parse_to_list expand_number_range
            script) = []
  /\ outcome (script_main long_int_name textfsm_parse_to_list expand_number_range
                script)
     = Raise (ScriptError "This script must be launched in a not-connected tab.").
Proof. intros H. unfold script_main. rewrite H. split; reflexivity. Qed.

Lemma C9_connected_tab_stops_first_example :
  is_connected Sim.launched_connected = true
  /\ events (Sim.run Sim.launched_connected) = [].
Proof.
  split; [reflexivity|].
  apply (C9_connected_tab_stops_first Utilities.long_int_name
           Utilities.textfsm_parse_to_list Utilities.expand_number_range
           Sim.launched_connected).
  reflexivity.
Defined.



(** * Further properties of the script *)

(** ** The filter on any table *)

Section FilterTotal.

Variable long_int_name : string -> string.

Lemma filter_body_readable st row :
  readable (vlan_set st) row = true ->
  filter_body long_int_name st row
  = Ok (if kept long_int_name (vlan_set st) (exclude_ports st) row
        then set_results st (results st ++ [row])%list
        else st).
Proof.
  destruct row as [|f0 tl]; [discriminate|].
  unfold readable, filter_body, kept, vlan_of_field. simpl.
  destruct (Py.int f0) as [vlan|e] eqn:Hint.
  - destruct (decide (vlan ∈ vlan_set st)) as [Hin|Hout].
    + rewrite bool_decide_eq_true_2 by exact Hin. intros Hlen.
      destruct tl as [|f1 [|f2 tl]]; try discriminate Hlen.
      simpl. unfold uplink_of.
      destruct (exclude_ports st !! vlan); simpl;
        match goal with |- context [negb ?b] => destruct b end; reflexivity.
    + rewrite bool_decide_eq_false_2 by exact Hout. intros _.
      destruct tl as [|f1 [|f2 tl]]; reflexivity.
  - apply int_raises_ValueError in Hint. subst e. intros _.
    destruct tl as [|f1 [|f2 tl]]; reflexivity.
Qed.

Lemma filter_body_unreadable st row :
  readable (vlan_set st) row = false ->
  filter_body long_int_name st row = Raise IndexError.
Proof.
  destruct row as [|f0 tl]; [reflexivity|].
  unfold readable, filter_body, vlan_of_field. simpl.
  destruct (Py.int f0) as [vlan|e] eqn:Hint; [|discriminate].
  destruct (decide (vlan ∈ vlan_set st)) as [Hin|Hout].
  - rewrite bool_decide_eq_true_2 by exact Hin. intros Hlen.
    destruct tl as [|f1 [|f2 tl]]; try discriminate Hlen; reflexivity.
  - rewrite bool_decide_eq_false_2 by exact Hout. discriminate.
Qed.

Lemma filter_loop_total rows : forall st,
  filter_loop long_int_name st rows
  = if forallb (readable (vlan_set st)) rows
    then Ok (set_results st
               (results st
                  ++ List.filter (kept long_int_name (vlan_set st) (exclude_ports st))
                       rows)%list)
    else Raise IndexError.
Proof.
  induction rows as [|row rows IH]; intros st.
  - simpl. rewrite app_nil_r. destruct st; reflexivity.
  - cbn [filter_loop forallb List.filter].
    destruct (readable (vlan_set st) row) eqn:Hr.
    + rewrite (filter_body_readable _ _ Hr). cbn [rbind andb].
      destruct (kept long_int_name (vlan_set st) (exclude_ports st) row);
        rewrite IH; cbn [vlan_set exclude_ports results set_results];
        destruct (forallb _ rows); try reflexivity.
      rewrite <- app_assoc. reflexivity.
    + rewrite (filter_body_unreadable _ _ Hr). reflexivity.
Qed.

Lemma mac_filter_total vs ex rows :
  mac_filter long_int_name vs ex rows
  = if forallb (readable vs) rows
    then Ok (List.filter (kept long_int_name vs ex) rows)
    else Raise IndexError.
Proof.
  unfold mac_filter, run_filter. cbn [fsm_results set_results vlan_set
    exclude_ports results]. rewrite filter_loop_total.
  cbn [vlan_set exclude_ports results set_results app].
  destruct (forallb _ rows); reflexivity.
Qed.

Lemma kept_readable vs ex row :
  kept long_int_name vs ex row = true -> readable vs row = true.
Proof.
  unfold kept, readable.
  destruct row as [|f0 [|f1 [|f2 tl]]]; try discriminate.
  destruct (vlan_of_field f0); [|discriminate].
  destruct (bool_decide _); reflexivity.
Qed.

Lemma filter_kept_again vs ex rows :
  List.filter (kept long_int_name vs ex) (List.filter (kept long_int_name vs ex) rows)
  = List.filter (kept long_int_name vs ex) rows.
Proof.
  induction rows as [|row rows IH]; [reflexivity|]. simpl.
  destruct (kept long_int_name vs ex row) eqn:Hk; [|exact IH].
  simpl. rewrite Hk, IH. reflexivity.
Qed.

Lemma filter_kept_readable vs ex rows :
  forallb (readable vs) (List.filter (kept long_int_name vs ex) rows) = true.
Proof.
  induction rows as [|row rows IH]; [reflexivity|]. simpl.
  destruct (kept long_int_name vs ex row) eqn:Hk; [|exact IH].
  simpl. rewrite (kept_readable _ _ _ Hk), IH. reflexivity.
Qed.

End FilterTotal.

(** X1: on any parsed table, with no condition on its rows, the filter
    either returns the rows section 4.5 keeps, in order, or raises
    [IndexError]; it raises exactly when some row has no field at all, or
    has a vlan of the target set and fewer than three fields. Rows of
    other vlans and rows with a non-numeric first field may be short. *)
Theorem X1_filter_on_any_table
    (long_int_name : string -> string) (targets : gset Z)
    (uplinks : gmap Z string) (rows : list entry) :
  mac_filter long_int_name targets uplinks rows
  = if forallb (readable targets) rows
    then Ok (List.filter (kept long_int_name targets uplinks) rows)
    else Raise IndexError.
Proof. apply mac_filter_total. Qed.

(** X2: filtering a table in two parts gives the two results one after
    the other, and an error in either part is the error of the whole. *)
Theorem X2_filter_of_two_parts
    (long_int_name : string -> string) (targets : gset Z)
    (uplinks : gmap Z string) (rows1 rows2 : list entry) :
  mac_filter long_int_name targets uplinks (rows1 ++ rows2)%list
  = match mac_filter long_int_name targets uplinks rows1,
          mac_filter long_int_name targets uplinks rows2 with
    | Ok matched1, Ok matched2 => Ok (matched1 ++ matched2)%list
    | Raise e, _ => Raise e
    | Ok _, Raise e => Raise e
    end.
Proof.
  rewrite !mac_filter_total, forallb_app, List.filter_app.
  destruct (forallb (readable targets) rows1),
           (forallb (readable targets) rows2); reflexivity.
Qed.

(** X3: the rows the filter returns pass the filter again unchanged:
    filtering its own result, with the same target set and uplinks,
    returns that result. *)
Theorem X3_filter_again
    (long_int_name : string -> string) (targets : gset Z)
    (uplinks : gmap Z string) (rows matched : list entry) :
  mac_filter long_int_name targets uplinks rows = Ok matched ->
  mac_filter long_int_name targets uplinks matched = Ok matched.
Proof.
  rewrite !mac_filter_total.
  destruct (forallb (readable targets) rows); [|discriminate].
  intros [= <-].
  rewrite filter_kept_readable, filter_kept_again. reflexivity.
Qed.

Lemma X3_filter_again_example :
  mac_filter Utilities.long_int_name {[ 10 ]} {[ 10 := "gigabitethernet1/0/1" ]}
    [ ["10"; "aaaa.bbbb.cccc"; "Gi1/0/1"]; ["10"; "dddd.eeee.ffff"; "Fa0/2"];
      ["Total"]; ["20"] ]
  = Ok [ ["10"; "dddd.eeee.ffff"; "Fa0/2"] ]
  /\ mac_filter Utilities.long_int_name {[ 10 ]} {[ 10 := "gigabitethernet1/0/1" ]}
       [ ["10"; "dddd.eeee.ffff"; "Fa0/2"] ]
     = Ok [ ["10"; "dddd.eeee.ffff"; "Fa0/2"] ].
Proof.
  assert (H : mac_filter Utilities.long_int_name {[ 10 ]}
                {[ 10 := "gigabitethernet1/0/1" ]}
                [ ["10"; "aaaa.bbbb.cccc"; "Gi1/0/1"];
                  ["10"; "dddd.eeee.ffff"; "Fa0/2"]; ["Total"]; ["20"] ]
              = Ok [ ["10"; "dddd.eeee.ffff"; "Fa0/2"] ])
    by (vm_compute; reflexivity).
  split; [exact H|].
  exact (X3_filter_again Utilities.long_int_name _ _ _ _ H).
Defined.

(** ** The resolver on any records *)

Lemma chars_app (a b : string) :
  list_ascii_of_string (a ++ b)
  = (list_ascii_of_string a ++ list_ascii_of_string b)%list.
Proof.
  induction a as [|x a IH]; [reflexivity|].
  rewrite string_app_cons. simpl. rewrite IH. reflexivity.
Qed.

Lemma split_chars_no_sep sep l : forall cur,
  ~ In sep l ->
  Py.split_chars sep cur l = [string_of_list_ascii (rev cur ++ l)%list].
Proof.
  induction l as [|x l IH]; intros cur Hn; simpl.
  - rewrite app_nil_r. reflexivity.
  - destruct (Ascii.eqb x sep) eqn:Hx.
    + apply Ascii.eqb_eq in Hx. subst x. destruct Hn. left. reflexivity.
    + rewrite IH by (intros H; apply Hn; right; exact H).
      simpl. rewrite <- app_assoc. reflexivity.
Qed.

Lemma split_chars_at_sep sep l rest : forall cur,
  ~ In sep l ->
  Py.split_chars sep cur (l ++ sep :: rest)%list
  = string_of_list_ascii (rev cur ++ l)%list :: Py.split_chars sep [] rest.
Proof.
  induction l as [|x l IH]; intros cur Hn; simpl.
  - rewrite Ascii.eqb_refl, app_nil_r. reflexivity.
  - destruct (Ascii.eqb x sep) eqn:Hx.
    + apply Ascii.eqb_eq in Hx. subst x. destruct Hn. left. reflexivity.
    + rewrite IH by (intros H; apply Hn; right; exact H).
      simpl. rewrite <- app_assoc. reflexivity.
Qed.

Lemma digit_not_space c : Py.is_digit c = true -> Py.is_space c = false.
Proof. destruct c as [[] [] [] [] [] [] [] []]; (discriminate || reflexivity). Qed.

Lemma lstrip_chars_digit c l :
  Py.is_digit c = true -> Py.lstrip_chars (c :: l) = c :: l.
Proof. intros H. simpl. rewrite (digit_not_space _ H). reflexivity. Qed.

Lemma strip_chars_digits l :
  l <> [] -> Forall (fun c => Py.is_digit c = true) l -> Py.strip_chars l = l.
Proof.
  intros Hne Hd. unfold Py.strip_chars.
  destruct l as [|c l]; [contradiction|].
  rewrite lstrip_chars_digit by (inversion Hd; assumption).
  assert (Hr : Forall (fun c => Py.is_digit c = true) (rev (c :: l))).
  { apply List.Forall_forall. intros x Hx. apply List.in_rev in Hx.
    rewrite List.Forall_forall in Hd. apply Hd, Hx. }
  destruct (rev (c :: l)) as [|y r] eqn:Hrev.
  - apply (f_equal (@length ascii)) in Hrev. rewrite length_rev in Hrev.
    discriminate Hrev.
  - rewrite lstrip_chars_digit by (inversion Hr; assumption).
    rewrite <- Hrev. apply rev_involutive.
Qed.

Lemma digits_value_decimal l : forall acc,
  Forall (fun c => Py.is_digit c = true) l ->
  Py.digits_value acc l
  = Some (fold_left (fun a c => 10 * a + Py.digit_value c) l acc).
Proof.
  induction l as [|c l IH]; intros acc Hd; [reflexivity|].
  inversion Hd as [|? ? Hc Hl]; subst. simpl. rewrite Hc. apply IH, Hl.
Qed.

Lemma int_digits (d : string) :
  d <> "" ->
  Forall (fun c => Py.is_digit c = true) (list_ascii_of_string d) ->
  Py.int d = Ok (decimal (list_ascii_of_string d)).
Proof.
  intros Hne Hd. unfold Py.int.
  assert (Hl : list_ascii_of_string d <> [])
    by (destruct d; [contradiction | discriminate]).
  rewrite (strip_chars_digits _ Hl Hd).
  destruct (list_ascii_of_string d) as [|c l] eqn:Hc; [contradiction|].
  assert (Hu : Py.unsigned_value (c :: l) = Some (decimal (c :: l)))
    by (apply (digits_value_decimal (c :: l) 0 Hd)).
  assert (Hdc : Py.is_digit c = true) by (inversion Hd; assumption).
  destruct c as [[] [] [] [] [] [] [] []]; try discriminate Hdc;
    rewrite Hu; reflexivity.
Qed.

Lemma decimal_from_nonneg l : forall acc,
  0 <= acc ->
  0 <= fold_left (fun a c => 10 * a + Py.digit_value c) l acc.
Proof.
  induction l as [|c l IH]; intros acc Ha; simpl; [exact Ha|].
  apply IH. unfold Py.digit_value. lia.
Qed.

Lemma decimal_nonneg l : 0 <= decimal l.
Proof. apply decimal_from_nonneg. lia. Qed.

Lemma index_ok_lookup {A} (l : list A) (i : nat) (x : A) :
  Py.index l i = Ok x -> l !! i = Some x.
Proof.
  unfold Py.index. destruct (l !! i) eqn:Hl; [|discriminate].
  intros [= ->]. reflexivity.
Qed.

Section ResolverTotal.

Variable long_int_name : string -> string.

Lemma uplink_body_ok_root_record m record m' :
  uplink_body long_int_name m record = Ok m' -> root_record record.
Proof.
  unfold uplink_body. intros H.
  destruct (Py.index record 0) as [label|] eqn:H0; simpl in H; [|discriminate].
  destruct (Py.index (Py.split "N" label) 1) as [piece|] eqn:H1; simpl in H;
    [|discriminate].
  destruct (Py.int piece) as [vlan|] eqn:H2; simpl in H; [|discriminate].
  destruct (Py.index record 6) as [field|] eqn:H6; simpl in H; [|discriminate].
  split.
  - apply index_in_range in H6. lia.
  - exists label. split.
    + apply index_ok_lookup, H0.
    + exists vlan. unfold label_vlan, vlan_of_field.
      destruct (Py.split "N" label) as [|p0 [|digits ps]]; try discriminate H1.
      injection H1 as ->. rewrite H2. reflexivity.
Qed.

Lemma uplink_loop_ok_root_records records : forall m m',
  uplink_loop long_int_name m records = Ok m' -> Forall root_record records.
Proof.
  induction records as [|record records IH]; intros m m' H; [constructor|].
  simpl in H.
  destruct (uplink_body long_int_name m record) as [m1|] eqn:Hb; simpl in H;
    [|discriminate].
  constructor; [eapply uplink_body_ok_root_record, Hb | eapply IH, H].
Qed.

End ResolverTotal.

(** X4: the resolver returns a map exactly when every record has at least
    seven fields and a label whose text between the first and the second
    N (or the end) is an integer; on any other input it raises. *)
Theorem X4_resolver_succeeds_iff
    (long_int_name : string -> string) (records : list entry) :
  (exists uplinks, uplink_resolver long_int_name records = Ok uplinks)
  <-> Forall root_record records.
Proof.
  split.
  - intros [m Hm]. eapply uplink_loop_ok_root_records, Hm.
  - intros H. destruct (uplink_loop_spec long_int_name records ∅ H) as (m & Hm & _).
    exists m. exact Hm.
Qed.

(** X5: what the resolver raises on a record, whatever map it has built
    so far: [IndexError] for a record without fields, for a label without
    an N, and for a record with a good label but fewer than seven fields;
    [ValueError] for a label whose text after the first N is not an
    integer. *)
Theorem X5_resolver_errors
    (long_int_name : string -> string) (uplinks : gmap Z string) :
  uplink_body long_int_name uplinks [] = Raise IndexError
  /\ (forall label fields,
        ~ In "N"%char (list_ascii_of_string label) ->
        uplink_body long_int_name uplinks (label :: fields) = Raise IndexError)
  /\ (forall label fields before piece after e,
        Py.split "N" label = before :: piece :: after ->
        Py.int piece = Raise e ->
        uplink_body long_int_name uplinks (label :: fields) = Raise ValueError)
  /\ (forall label fields vlan,
        label_vlan label = Some vlan ->
        (length (label :: fields) < 7)%nat ->
        uplink_body long_int_name uplinks (label :: fields) = Raise IndexError).
Proof.
  split; [reflexivity|]. split; [|split].
  - intros label fields Hn. unfold uplink_body. simpl.
    unfold Py.split. rewrite (split_chars_no_sep _ _ [] Hn). reflexivity.
  - intros label fields before piece after e Hs Hi.
    unfold uplink_body. simpl. rewrite Hs. simpl. rewrite Hi.
    apply int_raises_ValueError in Hi. subst e. reflexivity.
  - intros label fields vlan Hv Hlen.
    unfold uplink_body. simpl. unfold label_vlan, vlan_of_field in Hv.
    destruct (Py.split "N" label) as [|p0 [|digits ps]]; try discriminate Hv.
    simpl. destruct (Py.int digits); [|discriminate Hv]. simpl.
    destruct fields as [|f1 [|f2 [|f3 [|f4 [|f5 [|f6 tl]]]]]];
      simpl in Hlen; try lia; reflexivity.
Qed.

Lemma X5_resolver_errors_example :
  uplink_body Utilities.long_int_name ∅ ["MST01"; "a"; "b"; "c"; "d"; "e"; "Gi1/0/1"]
  = Raise IndexError
  /\ uplink_body Utilities.long_int_name ∅ ["VLAN10a"; "a"; "b"; "c"; "d"; "e"; "Gi1/0/1"]
     = Raise ValueError
  /\ uplink_body Utilities.long_int_name ∅ ["VLAN0010"; "a"; "b"; "c"; "d"; "Gi1/0/1"]
     = Raise IndexError.
Proof.
  destruct (X5_resolver_errors Utilities.long_int_name ∅) as (_ & H1 & H2 & H3).
  split; [|split].
  - apply H1. simpl. intros H.
    repeat (destruct H as [H|H]; [discriminate H|]). exact H.
  - apply (H2 "VLAN10a" _ "VLA" "10a" [] ValueError); reflexivity.
  - apply (H3 "VLAN0010" _ 10); [reflexivity | simpl; lia].
Defined.

(** X6: the vlan id of a record is the decimal number that follows the
    first N of its label, leading zeros included, whatever precedes that
    N: for a label made of a prefix without N, an N, and a non-empty run
    of digits, a record of at least seven fields adds its normalized root
    port under that number, or nothing when the port is empty. *)
Theorem X6_label_number
    (long_int_name : string -> string) (uplinks : gmap Z string)
    (prefix digits f1 f2 f3 f4 f5 root_port : string) (more : list string) :
  ~ In "N"%char (list_ascii_of_string prefix) ->
  digits <> "" ->
  Forall (fun c => Py.is_digit c = true) (list_ascii_of_string digits) ->
  uplink_body long_int_name uplinks
    ((prefix ++ "N" ++ digits) :: f1 :: f2 :: f3 :: f4 :: f5 :: root_port :: more)
  = Ok (if Py.truthy (Py.strip (long_int_name root_port))
        then <[decimal (list_ascii_of_string digits)
               := Py.strip (long_int_name root_port)]> uplinks
        else uplinks)
  /\ 0 <= decimal (list_ascii_of_string digits).
Proof.
  intros Hp Hne Hd. split; [|apply decimal_nonneg].
  assert (HnoN : ~ In "N"%char (list_ascii_of_string digits)).
  { intros H. rewrite List.Forall_forall in Hd. specialize (Hd _ H). discriminate Hd. }
  assert (Hs : Py.split "N" (prefix ++ "N" ++ digits) = [prefix; digits]).
  { unfold Py.split. rewrite chars_app. change (list_ascii_of_string ("N" ++ digits))
      with ("N"%char :: list_ascii_of_string digits).
    rewrite (split_chars_at_sep _ _ _ [] Hp), (split_chars_no_sep _ _ [] HnoN).
    simpl. rewrite !string_of_list_ascii_of_string. reflexivity. }
  unfold uplink_body.
  rewrite (index_lookup _ 0 (prefix ++ "N" ++ digits)) by reflexivity.
  cbn [rbind]. rewrite Hs.
  rewrite (index_lookup [prefix; digits] 1 digits) by reflexivity.
  cbn [rbind]. rewrite (int_digits _ Hne Hd). cbn [rbind].
  rewrite (index_lookup _ 6 root_port) by reflexivity. cbn [rbind].
  destruct (Py.truthy _); reflexivity.
Qed.

Lemma X6_label_number_example :
  uplink_body Utilities.long_int_name ∅
    ["VLAN0010"; "32778"; "0011.2233.4455"; "4"; "2"; "20"; "Gi1/0/1"]
  = Ok {[ 10 := "gigabitethernet1/0/1" ]}.
Proof.
  destruct (X6_label_number Utilities.long_int_name ∅ "VLA" "0010"
              "32778" "0011.2233.4455" "4" "2" "20" "Gi1/0/1" []) as [H _].
  - simpl. intros H. repeat (destruct H as [H|H]; [discriminate H|]). exact H.
  - discriminate.
  - repeat constructor.
  - exact H.
Defined.

(** ** The rows of the report *)

(** X7: a row of the report is never cut and never fails on a match: the
    line for (vlan, mac, port, ...) is the vlan padded on the right to 8
    characters, the mac padded to 20 and the port; a field longer than its
    column is written whole and gets no padding, so the line is as long as
    the larger of 8 and the vlan, plus the larger of 20 and the mac, plus
    the port; with fields that fit, the port starts at column 28. A row
    with fewer than three fields raises [IndexError]. *)
Theorem X7_row_columns (vlan mac port : string) (more : list string) :
  format_row (vlan :: mac :: port :: more)
  = Ok (ljust 8 vlan ++ ljust 20 mac ++ port)
  /\ Py.len (ljust 8 vlan ++ ljust 20 mac ++ port)
     = Z.max 8 (Py.len vlan) + Z.max 20 (Py.len mac) + Py.len port
  /\ (Py.len vlan <= 8 -> Py.len mac <= 20 ->
      Py.len (ljust 8 vlan ++ ljust 20 mac) = 28)
  /\ format_row [] = Raise IndexError
  /\ format_row [vlan] = Raise IndexError
  /\ format_row [vlan; mac] = Raise IndexError.
Proof.
  assert (Hlen : forall a b, Py.len (a ++ b) = Py.len a + Py.len b).
  { intros a b. unfold Py.len. rewrite string_app_length. lia. }
  split; [|split; [|split]].
  - unfold format_row, ljust. simpl. rewrite !string_app_assoc. reflexivity.
  - rewrite !Hlen, !ljust_length. lia.
  - intros Hv Hm. rewrite Hlen, !ljust_length. lia.
  - repeat split.
Qed.

Lemma X7_row_columns_example :
  Py.len "10" <= 8 /\ Py.len "dddd.eeee.ffff" <= 20
  /\ Py.len (ljust 8 "10" ++ ljust 20 "dddd.eeee.ffff") = 28.
Proof.
  assert (H1 : Py.len "10" <= 8) by (vm_compute; discriminate).
  assert (H2 : Py.len "dddd.eeee.ffff" <= 20) by (vm_compute; discriminate).
  split; [exact H1|]. split; [exact H2|].
  destruct (X7_row_columns "10" "dddd.eeee.ffff" "Fa0/2" []) as (_ & _ & H & _).
  exact (H H1 H2).
Defined.

(** ** The conversation of the collector with a session *)

Section Conversation.

Variable long_int_name : string -> string.
Variable textfsm_parse_to_list : string -> template -> list entry.
Variable script : Script.

Lemma per_device_work_prefix session enable vs :
  post (per_device_work long_int_name textfsm_parse_to_list script session enable vs)
    (fun t _ => t `prefix_of` with_fallback \/ t `prefix_of` without_fallback).
Proof.
  unfold per_device_work.
  repeat stage; cbn [app];
    first [ left; eexists; reflexivity | right; eexists; reflexivity ].
Qed.

End Conversation.

(** X8: whatever the session answers, what the collector does to it is an
    initial part of one of two conversations: enter automation mode, the
    spanning-tree command, the MAC-table command, possibly the fallback
    command, leave automation mode. It never sends another command, never
    the fallback before the primary command, and nothing after leaving
    automation mode; and when automation mode cannot be entered it sends
    no command at all and raises what [start_cisco_session] raised. *)
Theorem X8_collector_conversation
    (long_int_name : string -> string)
    (textfsm_parse_to_list : string -> template -> list entry)
    (script : Script) (session : Session) (enable : string) (vs : gset Z) :
  (events (per_device_work long_int_name textfsm_parse_to_list script
             session enable vs) `prefix_of` with_fallback
   \/ events (per_device_work long_int_name textfsm_parse_to_list script
                session enable vs) `prefix_of` without_fallback)
  /\ forall e,
       start_cisco_session session = Raise e ->
       per_device_work long_int_name textfsm_parse_to_list script session enable vs
       = ([EStartCiscoSession], Raise e).
Proof.
  split.
  - exact (per_device_work_prefix long_int_name textfsm_parse_to_list script
             session enable vs).
  - intros e He. unfold per_device_work. rewrite He. reflexivity.
Qed.

Lemma X8_collector_conversation_example :
  per_device_work Utilities.long_int_name Utilities.textfsm_parse_to_list
    Sim.three_devices
    {| hostname := "asa1"; os := "ASA";
       start_cisco_session := Raise (UnsupportedOSError "ASA is not supported");
       get_command_output := fun _ => Ok "";
       end_cisco_session := Ok tt |}
    "secret" {[ 10 ]}
  = ([EStartCiscoSession], Raise (UnsupportedOSError "ASA is not supported")).
Proof.
  apply (X8_collector_conversation Utilities.long_int_name
           Utilities.textfsm_parse_to_list Sim.three_devices).
  reflexivity.
Defined.

(** X9: when everything up to the primary MAC-table command succeeds, the
    collector is decided by the rows of that command: on an IOS device
    with exactly one row it sends the fallback command and filters the
    rows of its answer instead, the one primary row being dropped, or
    raises what the fallback command raised; in every other case it
    filters the primary rows. It then ends in one of three ways: it raises
    the filter's error without leaving automation mode; or it leaves
    automation mode and returns the session's hostname with the filtered
    rows; or leaving automation mode raises, and that error is raised and
    the filtered rows are lost. *)
Theorem X9_collector_result
    (long_int_name : string -> string)
    (textfsm_parse_to_list : string -> template -> list entry)
    (script : Script) (session : Session) (enable : string) (vs : gset Z)
    (tpl1 : template) (raw1 : string) (ex : gmap Z string)
    (tpl2 : template) (raw2 : string) :
  start_cisco_session session = Ok tt ->
  get_template script "cisco_os_show_spanning-tree_root.template" = Ok tpl1 ->
  get_command_output session "show spanning-tree root" = Ok raw1 ->
  uplink_resolver long_int_name (textfsm_parse_to_list raw1 tpl1) = Ok ex ->
  (if String.eqb (os session) "NXOS"
   then get_template script "cisco_nxos_show_mac_addr_table.template"
   else get_template script "cisco_ios_show_mac_addr_table.template") = Ok tpl2 ->
  get_command_output session "show mac address-table" = Ok raw2 ->
  per_device_work long_int_name textfsm_parse_to_list script session enable vs
  = if (String.eqb (os session) "IOS"
        && Nat.eqb (length (textfsm_parse_to_list raw2 tpl2)) 1)%bool
    then
      match get_command_output session "show mac-address-table dynamic" with
      | Ok raw3 =>
          finish long_int_name session vs ex
            [EStartCiscoSession; ECommand "show spanning-tree root";
             ECommand "show mac address-table"; fallback_command]
            (textfsm_parse_to_list raw3 tpl2)
      | Raise e =>
          ([EStartCiscoSession; ECommand "show spanning-tree root";
            ECommand "show mac address-table"; fallback_command], Raise e)
      end
    else
      finish long_int_name session vs ex
        [EStartCiscoSession; ECommand "show spanning-tree root";
         ECommand "show mac address-table"]
        (textfsm_parse_to_list raw2 tpl2).
Proof.
  intros Hs Ht1 Hr1 Hex Ht2 Hr2.
  rewrite (M_eta (per_device_work _ _ _ _ _ _)).
  unfold per_device_work. rewrite Hs.
  assert (Hsame : (if String.eqb (os session) "IOS"
                   then get_template script "cisco_os_show_spanning-tree_root.template"
                   else get_template script "cisco_os_show_spanning-tree_root.template")
                  = Ok tpl1) by (destruct (String.eqb (os session) "IOS"); exact Ht1).
  rewrite Hsame. run. rewrite Hr1. run. rewrite Hex. run. rewrite Ht2. run.
  rewrite Hr2. run.
  unfold finish, fallback_command.
  destruct (String.eqb (os session) "IOS"
            && Nat.eqb (length (textfsm_parse_to_list raw2 tpl2)) 1)%bool.
  - run.
    destruct (get_command_output session "show mac-address-table dynamic")
      as [raw3|e]; run; [|reflexivity].
    destruct (mac_filter long_int_name vs ex (textfsm_parse_to_list raw3 tpl2));
      run; [|reflexivity].
    destruct (end_cisco_session session) as [[]|e]; run; reflexivity.
  - run.
    destruct (mac_filter long_int_name vs ex (textfsm_parse_to_list raw2 tpl2));
      run; [|reflexivity].
    destruct (end_cisco_session session) as [[]|e]; run; reflexivity.
Qed.

Lemma X9_collector_result_example :
  per_device_work Utilities.long_int_name Utilities.textfsm_parse_to_list
    Sim.three_devices
    (Sim.session "sw6" "IOS" "" "10|dddd.eeee.ffff|Fa0/2" "10|aaaa.0000.0001|Fa0/9")
    "secret" {[ 10 ]}
  = (with_fallback, Ok ("sw6", [ ["10"; "aaaa.0000.0001"; "Fa0/9"] ])).
Proof.
  rewrite (X9_collector_result Utilities.long_int_name
             Utilities.textfsm_parse_to_list Sim.three_devices
             (Sim.session "sw6" "IOS" "" "10|dddd.eeee.ffff|Fa0/2"
                "10|aaaa.0000.0001|Fa0/9")
             "secret" {[ 10 ]}
             "cisco_os_show_spanning-tree_root.template" "" ∅
             "cisco_ios_show_mac_addr_table.template" "10|dddd.eeee.ffff|Fa0/2"
             eq_refl eq_refl eq_refl eq_refl eq_refl eq_refl).
  vm_compute. reflexivity.
Defined.

(** ** Disconnecting *)

Lemma disconnects_app (t1 t2 : list event) :
  script_disconnects (t1 ++ t2) = (script_disconnects t1 + script_disconnects t2)%nat
  /\ session_disconnects (t1 ++ t2)
     = (session_disconnects t1 + session_disconnects t2)%nat.
Proof. unfold script_disconnects, session_disconnects. rewrite !count_occ_app. auto. Qed.

Lemma session_events_no_disconnect (t : list event) :
  Forall session_event t -> script_disconnects t = 0%nat /\ session_disconnects t = 0%nat.
Proof.
  induction 1 as [|ev t Hev _ [IH1 IH2]]; [split; reflexivity|].
  unfold script_disconnects, session_disconnects in *.
  destruct ev; try contradiction; simpl; rewrite ?IH1, ?IH2; split; reflexivity.
Qed.

Lemma report_events_no_disconnect (t : list event) :
  Forall writes_report t -> script_disconnects t = 0%nat /\ session_disconnects t = 0%nat.
Proof.
  induction 1 as [|ev t Hev _ [IH1 IH2]]; [split; reflexivity|].
  unfold script_disconnects, session_disconnects in *.
  destruct ev; try contradiction; simpl; rewrite ?IH1, ?IH2; split; reflexivity.
Qed.

Section Disconnects.

Variable long_int_name : string -> string.
Variable textfsm_parse_to_list : string -> template -> list entry.
Variable script : Script.

Abbreviation collect := (collect long_int_name textfsm_parse_to_list script).
Abbreviation device_attempt :=
  (device_attempt long_int_name textfsm_parse_to_list script).
Abbreviation device_step :=
  (device_step long_int_name textfsm_parse_to_list script).
Abbreviation device_loop :=
  (device_loop long_int_name textfsm_parse_to_list script).

Lemma write_rows_events rows : Forall writes_report (events (write_rows rows)).
Proof.
  induction rows as [|row rows IH]; [constructor|].
  cbn [write_rows]. rewrite events_bind. cbn [events lift fst outcome snd app].
  destruct (format_row row) as [line|e]; [|constructor].
  rewrite events_bind. cbn [events emit fst outcome snd app].
  constructor; [exact I | exact IH].
Qed.

Lemma write_section_events h rows :
  Forall writes_report (events (write_section h rows)).
Proof.
  unfold write_section. run. cbn [app].
  constructor; [exact I|]. constructor; [exact I|].
  apply Forall_app. split; [apply write_rows_events|].
  destruct (outcome (write_rows rows)); run; repeat constructor.
Qed.

Lemma device_attempt_events vs device :
  events (device_attempt vs device)
  = (events (collect vs device)
     ++ match outcome (collect vs device) with
        | Ok (h, rows) =>
            EScriptDisconnect
              :: match rows with
                 | [] => []
                 | _ :: _ => events (write_section h rows)
                 end
        | Raise _ => []
        end)%list.
Proof.
  unfold device_attempt. rewrite events_bind.
  destruct (outcome (collect vs device)) as [[h rows]|e]; [|reflexivity].
  run. destruct rows; reflexivity.
Qed.

Lemma device_step_disconnects vs device :
  match outcome (collect vs device) with
  | Ok _ =>
      script_disconnects (events (device_step vs device)) = 1%nat
      /\ session_disconnects (events (device_step vs device)) = 0%nat
  | Raise e =>
      script_disconnects (events (device_step vs device)) = 0%nat
      /\ (recoverable e ->
          session_disconnects (events (device_step vs device)) = 1%nat)
      /\ (~ recoverable e ->
          session_disconnects (events (device_step vs device)) = 0%nat)
  end.
Proof.
  destruct (collect_post long_int_name textfsm_parse_to_list script vs device)
    as (t & Hev & Hsess & _).
  destruct (session_events_no_disconnect _ Hsess) as [Hc1 Hc2].
  assert (Hcol : script_disconnects (events (collect vs device)) = 0%nat
                 /\ session_disconnects (events (collect vs device)) = 0%nat).
  { rewrite Hev. unfold script_disconnects, session_disconnects in *.
    simpl. split; assumption. }
  destruct Hcol as [Hk1 Hk2].
  destruct (device_attempt_facts long_int_name textfsm_parse_to_list script vs device)
    as (Ho & _).
  pose proof (device_attempt_events vs device) as Hae.
  unfold device_step. rewrite events_catch, Ho, Hae.
  destruct (outcome (collect vs device)) as [[h rows]|e].
  - rewrite app_nil_r.
    destruct (disconnects_app (events (collect vs device))
                (EScriptDisconnect
                   :: match rows with
                      | [] => []
                      | _ :: _ => events (write_section h rows)
                      end)) as [-> ->].
    rewrite Hk1, Hk2.
    assert (Hw : Forall writes_report
                   match rows with
                   | [] => []
                   | _ :: _ => events (write_section h rows)
                   end)
      by (destruct rows; [constructor | apply write_section_events]).
    destruct (report_events_no_disconnect _ Hw) as [Hw1 Hw2].
    unfold script_disconnects, session_disconnects in *. simpl.
    rewrite Hw1, Hw2. split; reflexivity.
  - rewrite app_nil_r.
    destruct (disconnects_app (events (collect vs device))
                (events (failure_handler device e))) as [-> ->].
    rewrite Hk1, Hk2.
    destruct e; simpl; repeat split; try reflexivity; try tauto;
      intros H; exfalso; apply H; exact I.
Qed.

End Disconnects.

(** X10: each device is disconnected at most once, and by the right
    call: after a successful collection [script.disconnect()] is called
    once and [session.disconnect()] never; after a connect, interaction or
    unsupported-OS failure [session.disconnect()] is called once and
    [script.disconnect()] never; after any other error neither is
    called. *)
Theorem X10_disconnects
    (long_int_name : string -> string)
    (textfsm_parse_to_list : string -> template -> list entry)
    (script : Script) (vs : gset Z) (device : Device) :
  match outcome (collect long_int_name textfsm_parse_to_list script vs device) with
  | Ok _ =>
      script_disconnects
        (events (device_step long_int_name textfsm_parse_to_list script vs device))
      = 1%nat
      /\ session_disconnects
           (events (device_step long_int_name textfsm_parse_to_list script vs device))
         = 0%nat
  | Raise e =>
      script_disconnects
        (events (device_step long_int_name textfsm_parse_to_list script vs device))
      = 0%nat
      /\ (recoverable e ->
          session_disconnects
            (events (device_step long_int_name textfsm_parse_to_list script vs device))
          = 1%nat)
      /\ (~ recoverable e ->
          session_disconnects
            (events (device_step long_int_name textfsm_parse_to_list script vs device))
          = 0%nat)
  end.
Proof. apply device_step_disconnects. Qed.

Lemma X10_disconnects_example :
  session_disconnects
    (events (device_step Utilities.long_int_name Utilities.textfsm_parse_to_list
               Sim.three_devices {[ 10 ]} (Sim.device "sw3" None)))
  = 1%nat
  /\ session_disconnects
       (events (device_step Utilities.long_int_name Utilities.textfsm_parse_to_list
                  Sim.label_then_sw1 {[ 10 ]} (Sim.device "sw4" None)))
     = 0%nat.
Proof.
  split.
  - pose proof (X10_disconnects Utilities.long_int_name
                  Utilities.textfsm_parse_to_list Sim.three_devices {[ 10 ]}
                  (Sim.device "sw3" None)) as H.
    change (outcome (collect Utilities.long_int_name Utilities.textfsm_parse_to_list
                       Sim.three_devices {[ 10 ]} (Sim.device "sw3" None)))
      with (@Raise (string * list entry) (ConnectError " timed out ")) in H.
    destruct H as (_ & H & _). apply H. exact I.
  - pose proof (X10_disconnects Utilities.long_int_name
                  Utilities.textfsm_parse_to_list Sim.label_then_sw1 {[ 10 ]}
                  (Sim.device "sw4" None)) as H.
    change (outcome (collect Utilities.long_int_name Utilities.textfsm_parse_to_list
                       Sim.label_then_sw1 {[ 10 ]} (Sim.device "sw4" None)))
      with (@Raise (string * list entry) ValueError) in H.
    destruct H as (_ & _ & H). apply H. intros [].
Defined.

(** ** Where a run ends *)

Section Runs.

Variable long_int_name : string -> string.
Variable textfsm_parse_to_list : string -> template -> list entry.
Variable script : Script.

Lemma device_loop_stops vs device after e : forall before,
  Forall (survives long_int_name textfsm_parse_to_list script vs) before ->
  outcome (collect long_int_name textfsm_parse_to_list script vs device) = Raise e ->
  ~ recoverable e ->
  outcome (device_loop long_int_name textfsm_parse_to_list script vs
             (before ++ device :: after)) = Raise e
  /\ events (device_loop long_int_name textfsm_parse_to_list script vs
               (before ++ device :: after))
     = (events (device_loop long_int_name textfsm_parse_to_list script vs before)
        ++ events (device_step long_int_name textfsm_parse_to_list script vs device))%list.
Proof.
  intros before Hall He Hn.
  destruct (device_step_facts long_int_name textfsm_parse_to_list script vs device)
    as (_ & _ & _ & Ha).
  destruct (Ha e He Hn) as (Ho & _).
  induction Hall as [|d before Hd _ IH].
  - cbn [app device_loop]. rewrite events_bind, outcome_bind, Ho.
    rewrite app_nil_r. split; reflexivity.
  - destruct IH as [IHo IHe].
    destruct (device_step_facts long_int_name textfsm_parse_to_list script vs d)
      as (_ & _ & Hs & _).
    destruct (Hs Hd) as (Hok & _).
    cbn [app device_loop]. rewrite !events_bind, !outcome_bind, Hok, IHo, IHe.
    rewrite app_assoc. split; reflexivity.
Qed.

Lemma report_body_of_failures vs devices :
  (forall device, In device devices ->
     exists e, outcome (collect long_int_name textfsm_parse_to_list script vs device)
               = Raise e /\ recoverable e) ->
  report_body long_int_name textfsm_parse_to_list script vs devices = ""
  /\ length (flat_map (device_failure long_int_name textfsm_parse_to_list script vs)
               devices) = length devices
  /\ Forall (survives long_int_name textfsm_parse_to_list script vs) devices.
Proof.
  induction devices as [|d devices IH]; intros H; [repeat split; constructor|].
  destruct IH as (IH1 & IH2 & IH3); [intros x Hx; apply H; right; exact Hx|].
  destruct (H d (or_introl eq_refl)) as (e & He & Hr).
  assert (Hrep : device_report long_int_name textfsm_parse_to_list script vs d = "")
    by (unfold device_report; rewrite He; reflexivity).
  destruct (failure_line_one (Hostname d) e Hr) as [line Hline].
  assert (Hfail : device_failure long_int_name textfsm_parse_to_list script vs d
                  = [line])
    by (unfold device_failure; rewrite He; exact Hline).
  split; [|split].
  - unfold report_body in *. cbn [fold_right]. rewrite Hrep, IH1. reflexivity.
  - cbn [flat_map]. rewrite Hfail. cbn [app List.length]. rewrite IH2. reflexivity.
  - constructor; [|exact IH3]. unfold survives. rewrite He. exact Hr.
Qed.

End Runs.

(** X11: the loop stops at the first device whose processing raises an
    error the handlers do not name, with that error: the devices before it
    were processed completely (their sections are in the report, their
    failures in the log), connect was called for them and for the failing
    device, and for no device after it. *)
Theorem X11_loop_stops_at_first_unrecorded_error
    (long_int_name : string -> string)
    (textfsm_parse_to_list : string -> template -> list entry)
    (script : Script) (vs : gset Z)
    (before : list Device) (device : Device) (after : list Device) (e : exn) :
  Forall (survives long_int_name textfsm_parse_to_list script vs) before ->
  outcome (collect long_int_name textfsm_parse_to_list script vs device) = Raise e ->
  ~ recoverable e ->
  outcome (device_loop long_int_name textfsm_parse_to_list script vs
             (before ++ device :: after)) = Raise e
  /\ connects (events (device_loop long_int_name textfsm_parse_to_list script vs
                         (before ++ device :: after)))
     = (map Hostname before ++ [Hostname device])%list
  /\ report_text (events (device_loop long_int_name textfsm_parse_to_list script vs
                            (before ++ device :: after)))
     = report_body long_int_name textfsm_parse_to_list script vs before
  /\ log_lines (events (device_loop long_int_name textfsm_parse_to_list script vs
                          (before ++ device :: after)))
     = flat_map (device_failure long_int_name textfsm_parse_to_list script vs) before.
Proof.
  intros Hall He Hn.
  destruct (device_loop_stops long_int_name textfsm_parse_to_list script vs
              device after e before Hall He Hn) as (Ho & Hev).
  destruct (device_loop_facts long_int_name textfsm_parse_to_list script vs
              before Hall) as (_ & Hr & Hl & Hc).
  destruct (device_step_facts long_int_name textfsm_parse_to_list script vs device)
    as (Hsr & Hsc & _ & Ha).
  destruct (Ha e He Hn) as (_ & Hsl).
  split; [exact Ho|]. rewrite Hev.
  rewrite connects_app, report_text_app, log_lines_app, Hr, Hl, Hc, Hsr, Hsc, Hsl.
  unfold device_report. rewrite He, string_app_empty, app_nil_r.
  repeat split.
Qed.

Lemma X11_loop_stops_at_first_unrecorded_error_example :
  connects
    (events (device_loop Utilities.long_int_name Utilities.textfsm_parse_to_list
               (Sim.fleet false []) {[ 10 ]}
               ([Sim.device "sw1" None; Sim.device "sw3" None]
                ++ Sim.device "sw4" None :: [Sim.device "sw2" None])))
  = ["sw1"; "sw3"; "sw4"].
Proof.
  assert (H : Forall (survives Utilities.long_int_name
                        Utilities.textfsm_parse_to_list (Sim.fleet false []) {[ 10 ]})
                [Sim.device "sw1" None; Sim.device "sw3" None])
    by (repeat constructor).
  destruct (X11_loop_stops_at_first_unrecorded_error Utilities.long_int_name
              Utilities.textfsm_parse_to_list (Sim.fleet false []) {[ 10 ]}
              [Sim.device "sw1" None; Sim.device "sw3" None]
              (Sim.device "sw4" None) [Sim.device "sw2" None] ValueError H)
    as (_ & Hc & _).
  - vm_compute. reflexivity.
  - intros [].
  - exact Hc.
Defined.

(** X12: when the run reaches the loop and every device fails with a
    connect, interaction or unsupported-OS failure, the run still ends
    normally, the report holds its header and nothing else, and the
    failure log has one line per device. *)
Theorem X12_every_device_fails
    (long_int_name : string -> string)
    (textfsm_parse_to_list : string -> template -> list entry)
    (expand_number_range : string -> res (list Z))
    (script : Script) (numbers : list Z) (first : Device) (others : list Device) :
  is_connected script = false ->
  import_device_list script = first :: others ->
  Py.truthy (prompt_window script) = true ->
  expand_number_range (prompt_window script) = Ok numbers ->
  (forall device, In device (first :: others) ->
     exists e, outcome (collect long_int_name textfsm_parse_to_list script
                          (list_to_set numbers) device) = Raise e
               /\ recoverable e) ->
  outcome (script_main long_int_name textfsm_parse_to_list expand_number_range script)
  = Ok tt
  /\ report_text (events (script_main long_int_name textfsm_parse_to_list
                            expand_number_range script))
     = "MAC ADDRESS SEARCH IN VLANS: " ++ prompt_window script ++ nl ++ nl
  /\ length (log_lines (events (script_main long_int_name textfsm_parse_to_list
                                  expand_number_range script)))
     = length (first :: others).
Proof.
  intros Hc Hi Hp He Hall.
  rewrite (script_main_runs_loop long_int_name textfsm_parse_to_list script
             expand_number_range numbers first others Hc Hi Hp He).
  destruct (report_body_of_failures long_int_name textfsm_parse_to_list script
              _ _ Hall) as (Hb & Hn & Hs).
  destruct (device_loop_facts long_int_name textfsm_parse_to_list script _ _ Hs)
    as (Ho & Hr & Hl & _).
  cbn [events outcome fst snd]. split; [exact Ho|].
  split.
  - rewrite report_text_app, Hr, Hb. cbn [report_text]. unfold report_header.
    rewrite !string_app_empty. reflexivity.
  - rewrite log_lines_app, Hl, length_app, Hn. reflexivity.
Qed.

Lemma X12_every_device_fails_example :
  report_text (events (Sim.run (Sim.fleet false
                                  [Sim.device "sw3" None; Sim.device "sw7" None])))
  = "MAC ADDRESS SEARCH IN VLANS: 10" ++ nl ++ nl.
Proof.
  apply (X12_every_device_fails Utilities.long_int_name
           Utilities.textfsm_parse_to_list Utilities.expand_number_range
           (Sim.fleet false [Sim.device "sw3" None; Sim.device "sw7" None])
           [10] (Sim.device "sw3" None) [Sim.device "sw7" None]
           eq_refl eq_refl eq_refl eq_refl).
  intros device [<-|[<-|[]]]; exists (ConnectError " timed out ");
    (split; [reflexivity | exact I]).
Defined.

(** X13: nothing but loading the inventory and prompting the operator
    happens unless the tab is not connected, the inventory is not empty,
    the operator entered a range, and the range expands: any other action
    in a run (opening or writing the report, connecting, logging a
    failure) implies all four; and then the report is opened and its
    header written before the first device is contacted. *)
Theorem X13_gates_before_any_action
    (long_int_name : string -> string)
    (textfsm_parse_to_list : string -> template -> list entry)
    (expand_number_range : string -> res (list Z)) (script : Script) (ev : event) :
  In ev (events (script_main long_int_name textfsm_parse_to_list
                   expand_number_range script)) ->
  ~ preliminary ev ->
  is_connected script = false
  /\ import_device_list script <> []
  /\ Py.truthy (prompt_window script) = true
  /\ exists numbers,
       expand_number_range (prompt_window script) = Ok numbers
       /\ events (script_main long_int_name textfsm_parse_to_list
                    expand_number_range script)
          = ([EImportDeviceList; EPromptWindow; EOpenReport;
              EWriteReport ("MAC ADDRESS SEARCH IN VLANS: "
                              ++ prompt_window script ++ nl ++ nl)]
             ++ events (device_loop long_int_name textfsm_parse_to_list script
                          (list_to_set numbers) (import_device_list script)))%list.
Proof.
  intros Hin Hnp.
  destruct (is_connected script) eqn:Hc.
  { unfold script_main in Hin. rewrite Hc in Hin. destruct Hin. }
  destruct (import_device_list script) as [|first others] eqn:Hi.
  { unfold script_main in Hin. rewrite Hc in Hin. revert Hin. run. rewrite Hi. run.
    intros [<-|[]]. destruct Hnp. exact I. }
  destruct (Py.truthy (prompt_window script)) eqn:Hp.
  2:{ unfold script_main in Hin. rewrite Hc in Hin. revert Hin. run. rewrite Hi. run.
      rewrite Hp. cbn [negb]. run.
      intros [<-|[<-|[]]]; destruct Hnp; exact I. }
  destruct (expand_number_range (prompt_window script)) as [numbers|e] eqn:He.
  2:{ unfold script_main in Hin. rewrite Hc in Hin. revert Hin. run. rewrite Hi. run.
      rewrite Hp. cbn [negb]. run. rewrite He. run.
      intros [<-|[<-|[]]]; destruct Hnp; exact I. }
  repeat split; try discriminate.
  exists numbers. split; [reflexivity|].
  rewrite (script_main_runs_loop long_int_name textfsm_parse_to_list script
             expand_number_range numbers first others Hc Hi Hp He).
  reflexivity.
Qed.

Lemma X13_gates_before_any_action_example :
  In EOpenReport
    (events (script_main Utilities.long_int_name Utilities.textfsm_parse_to_list
               Utilities.expand_number_range Sim.three_devices))
  /\ is_connected Sim.three_devices = false.
Proof.
  assert (H : In EOpenReport
                (events (script_main Utilities.long_int_name
                           Utilities.textfsm_parse_to_list
                           Utilities.expand_number_range Sim.three_devices)))
    by (vm_compute; tauto).
  split; [exact H|].
  destruct (X13_gates_before_any_action Utilities.long_int_name
              Utilities.textfsm_parse_to_list Utilities.expand_number_range
              Sim.three_devices EOpenReport H) as (Hc & _).
  - intros [].
  - exact Hc.
Defined.

(** X14: the three ways a run on a not-connected tab ends before the
    loop: with an empty inventory it ends normally without prompting; with
    an empty answer to the prompt it ends normally; with a range that does
    not expand it raises the expander's error. In none of them a file is
    opened or a device contacted. *)
Theorem X14_early_exits
    (long_int_name : string -> string)
    (textfsm_parse_to_list : string -> template -> list entry)
    (expand_number_range : string -> res (list Z)) (script : Script) :
  is_connected script = false ->
  (import_device_list script = [] ->
   script_main long_int_name textfsm_parse_to_list expand_number_range script
   = ([EImportDeviceList], Ok tt))
  /\ (import_device_list script <> [] ->
      Py.truthy (prompt_window script) = false ->
      script_main long_int_name textfsm_parse_to_list expand_number_range script
      = ([EImportDeviceList; EPromptWindow], Ok tt))
  /\ (forall e,
        import_device_list script <> [] ->
        Py.truthy (prompt_window script) = true ->
        expand_number_range (prompt_window script) = Raise e ->
        script_main long_int_name textfsm_parse_to_list expand_number_range script
        = ([EImportDeviceList; EPromptWindow], Raise e)).
Proof.
  intros Hc. unfold script_main. rewrite Hc.
  split; [intros ->; reflexivity|]. split.
  - intros Hi Hp. destruct (import_device_list script); [contradiction|].
    unfold bind, call. simpl. rewrite Hp. reflexivity.
  - intros e Hi Hp He. destruct (import_device_list script); [contradiction|].
    unfold bind, call. simpl. rewrite Hp. simpl. rewrite He. reflexivity.
Qed.

Lemma X14_early_exits_example :
  Sim.run (Sim.fleet false []) = ([EImportDeviceList], Ok tt).
Proof.
  destruct (X14_early_exits Utilities.long_int_name Utilities.textfsm_parse_to_list
              Utilities.expand_number_range (Sim.fleet false []) eq_refl)
    as (H & _).
  exact (H eq_refl).
Defined.

(** ** The uplink against the rows *)

Lemma lstrip_chars_head l c l' :
  Py.lstrip_chars l = c :: l' -> Py.is_space c = false.
Proof.
  induction l as [|x l IH]; simpl; [discriminate|].
  destruct (Py.is_space x) eqn:Hx; [exact IH|].
  intros [= <- _]. exact Hx.
Qed.

Lemma lstrip_chars_keeps_last l c :
  Py.is_space c = false -> exists z, Py.lstrip_chars (l ++ [c]) = (z ++ [c])%list.
Proof.
  intros Hc. induction l as [|x l IH]; simpl.
  - rewrite Hc. exists []. reflexivity.
  - destruct (Py.is_space x); [exact IH|]. exists (x :: l). reflexivity.
Qed.

(** What [strip] returns does not begin with whitespace. *)
Lemma strip_chars_head l c l' :
  Py.strip_chars l = c :: l' -> Py.is_space c = false.
Proof.
  unfold Py.strip_chars.
  destruct (Py.lstrip_chars l) as [|y ys] eqn:Hl; [discriminate|].
  pose proof (lstrip_chars_head _ _ _ Hl) as Hy.
  simpl rev at 2.
  destruct (lstrip_chars_keeps_last (rev ys) y Hy) as [z ->].
  rewrite rev_app_distr. simpl. intros [= <- _]. exact Hy.
Qed.

Lemma lower_char_space c : Py.is_space (Py.lower_char c) = Py.is_space c.
Proof. destruct c as [[] [] [] [] [] [] [] []]; reflexivity. Qed.

Lemma lower_strip_head u c s :
  Py.lower (Py.strip u) = String c s -> Py.is_space c = false.
Proof.
  unfold Py.strip.
  destruct (Py.strip_chars (list_ascii_of_string u)) as [|x xs] eqn:Hs;
    [discriminate|].
  simpl. intros [= <- _]. rewrite lower_char_space.
  eapply strip_chars_head, Hs.
Qed.

(** X15: the uplink is compared trimmed, the interface of a row as the
    normalizer returns it: a row of a target vlan whose normalized
    interface begins with whitespace is kept whatever the uplink map
    holds, since no trimmed uplink begins with whitespace. *)
Theorem X15_untrimmed_interface_is_kept
    (long_int_name : string -> string) (targets : gset Z)
    (uplinks : gmap Z string)
    (vlan_field mac interface_field : string) (more : list string)
    (vlan : Z) (c : ascii) (s : string) :
  Py.int vlan_field = Ok vlan -> vlan ∈ targets ->
  Py.lower (long_int_name interface_field) = String c s ->
  Py.is_space c = true ->
  mac_filter long_int_name targets uplinks
    [vlan_field :: mac :: interface_field :: more]
  = Ok [vlan_field :: mac :: interface_field :: more].
Proof.
  intros Hint Hin Hl Hc.
  rewrite mac_filter_total. cbn [forallb List.filter].
  unfold readable, kept, vlan_of_field. rewrite Hint.
  rewrite bool_decide_eq_true_2 by exact Hin. simpl. rewrite Hl.
  destruct (Py.lower (Py.strip (uplink_of uplinks vlan))) as [|x xs] eqn:Hu.
  - reflexivity.
  - pose proof (lower_strip_head _ _ _ Hu) as Hx.
    assert (Hne : String.eqb (String c s) (String x xs) = false).
    { apply String.eqb_neq. intros [= -> _]. congruence. }
    rewrite Hne. reflexivity.
Qed.

Lemma X15_untrimmed_interface_is_kept_example :
  mac_filter (fun s => s) {[ 10 ]} {[ 10 := "gi1/0/1" ]}
    [ ["10"; "aaaa.bbbb.cccc"; " Gi1/0/1"] ]
  = Ok [ ["10"; "aaaa.bbbb.cccc"; " Gi1/0/1"] ].
Proof.
  apply (X15_untrimmed_interface_is_kept (fun s => s) {[ 10 ]} {[ 10 := "gi1/0/1" ]}
           "10" "aaaa.bbbb.cccc" " Gi1/0/1" [] 10 " "%char "gi1/0/1").
  - reflexivity.
  - set_solver.
  - reflexivity.
  - reflexivity.
Defined.

Section ResolverParts.

Variable long_int_name : string -> string.

Lemma last_uplink_app vlan records1 records2 :
  last_uplink long_int_name vlan (records1 ++ records2)
  = match last_uplink long_int_name vlan records2 with
    | Some port => Some port
    | None => last_uplink long_int_name vlan records1
    end.
Proof.
  induction records1 as [|r records1 IH]; simpl.
  - destruct (last_uplink long_int_name vlan records2); reflexivity.
  - rewrite IH. destruct (last_uplink long_int_name vlan records2); reflexivity.
Qed.

End ResolverParts.

(** X16: resolving records in two parts and letting the second map
    override the first gives the map of the whole: later records win over
    earlier ones, vlan by vlan. *)
Theorem X16_resolver_of_two_parts
    (long_int_name : string -> string) (records1 records2 : list entry)
    (uplinks1 uplinks2 : gmap Z string) :
  uplink_resolver long_int_name records1 = Ok uplinks1 ->
  uplink_resolver long_int_name records2 = Ok uplinks2 ->
  uplink_resolver long_int_name (records1 ++ records2)%list
  = Ok (uplinks2 ∪ uplinks1).
Proof.
  intros H1 H2.
  pose proof (uplink_loop_ok_root_records long_int_name _ _ _ H1) as Hr1.
  pose proof (uplink_loop_ok_root_records long_int_name _ _ _ H2) as Hr2.
  destruct (uplink_loop_spec long_int_name records1 ∅ Hr1) as (m1 & Hm1 & L1).
  destruct (uplink_loop_spec long_int_name records2 ∅ Hr2) as (m2 & Hm2 & L2).
  assert (Hall : Forall root_record (records1 ++ records2)%list)
    by (apply Forall_app; split; assumption).
  destruct (uplink_loop_spec long_int_name _ ∅ Hall) as (m & Hm & L).
  unfold uplink_resolver in *. rewrite Hm1 in H1. rewrite Hm2 in H2.
  injection H1 as <-. injection H2 as <-.
  rewrite Hm. f_equal. apply map_eq. intros vlan.
  rewrite L, last_uplink_app, lookup_union, L1, L2, !lookup_empty.
  destruct (last_uplink long_int_name vlan records2),
           (last_uplink long_int_name vlan records1); reflexivity.
Qed.

Lemma X16_resolver_of_two_parts_example :
  uplink_resolver Utilities.long_int_name
    ([ ["VLAN0010"; "a"; "b"; "c"; "d"; "e"; "Gi1/0/1"] ]
     ++ [ ["VLAN0010"; "a"; "b"; "c"; "d"; "e"; "Gi1/0/2"] ])%list
  = Ok ({[ 10 := "gigabitethernet1/0/2" ]} ∪ {[ 10 := "gigabitethernet1/0/1" ]}).
Proof.
  apply (X16_resolver_of_two_parts Utilities.long_int_name); reflexivity.
Defined.

(** X17: a collected device is reported under the hostname its session
    gives, not under the name in the inventory, and every row collected
    for it has the three fields the report prints. *)
Theorem X17_collected_under_session_hostname
    (long_int_name : string -> string)
    (textfsm_parse_to_list : string -> template -> list entry)
    (script : Script) (vs : gset Z) (device : Device)
    (h : string) (rows : list entry) :
  outcome (collect long_int_name textfsm_parse_to_list script vs device)
  = Ok (h, rows) ->
  exists session,
    connect script (Hostname device) (Username device) (Password device)
      (Protocol device) (resolve_proxy script device) = Ok session
    /\ h = hostname session
    /\ Forall mac_record rows.
Proof.
  unfold collect. rewrite outcome_bind. cbn [outcome call snd].
  destruct (connect script _ _ _ _ _) as [session|e]; [|discriminate].
  intros Ho. exists session. split; [reflexivity|].
  pose proof (per_device_work_post long_int_name textfsm_parse_to_list script
                session (Enable device) vs) as H.
  unfold post in H. rewrite Ho in H. destruct H as (_ & _ & _ & Hh & Hrows & _).
  split; assumption.
Qed.

Lemma X17_collected_under_session_hostname_example :
  exists session,
    connect (Sim.fleet false []) "sw1" "admin" "secret" "SSH2" None = Ok session
    /\ "sw1" = hostname session.
Proof.
  destruct (X17_collected_under_session_hostname Utilities.long_int_name
              Utilities.textfsm_parse_to_list (Sim.fleet false []) {[ 10 ]}
              (Sim.device "sw1" None) "sw1" [ ["10"; "dddd.eeee.ffff"; "Fa0/2"] ])
    as (session & Hc & Hh & _).
  - vm_compute. reflexivity.
  - exists session. split; [exact Hc | exact Hh].
Defined.

Lemma X4_resolver_succeeds_iff_example :
  Forall root_record
    [ ["VLAN0010"; "32778"; "0011.2233.4455"; "4"; "2"; "20"; "Gi1/0/1"] ].
Proof.
  apply (X4_resolver_succeeds_iff Utilities.long_int_name).
  eexists. reflexivity.
Defined.

(** * The resolver on the labels it can and cannot read (C7, C5) *)

Lemma split_chars_not_nil sep l : forall cur, Py.split_chars sep cur l <> [].
Proof.
  induction l as [|x l IH]; intros cur; simpl; [discriminate|].
  destruct (Ascii.eqb x sep); [discriminate | apply IH].
Qed.

Lemma split_chars_with_sep sep l : forall cur,
  In sep l ->
  exists before piece after, Py.split_chars sep cur l = before :: piece :: after.
Proof.
  induction l as [|x l IH]; intros cur Hin; [destruct Hin|]. simpl.
  destruct (Ascii.eqb x sep) eqn:Hx.
  - destruct (Py.split_chars sep [] l) as [|piece after] eqn:Hs.
    + destruct (split_chars_not_nil _ _ _ Hs).
    + eauto.
  - destruct Hin as [->|Hin]; [rewrite Ascii.eqb_refl in Hx; discriminate|].
    apply IH, Hin.
Qed.

Section LabelKinds.

Variable long_int_name : string -> string.

Lemma uplink_loop_app records1 records2 : forall m,
  uplink_loop long_int_name m (records1 ++ records2)
  = (m' <-? uplink_loop long_int_name m records1 ;;
     uplink_loop long_int_name m' records2).
Proof.
  induction records1 as [|r records1 IH]; intros m; [reflexivity|].
  simpl. destruct (uplink_body long_int_name m r) as [m1|e]; simpl;
    [apply IH | reflexivity].
Qed.

(** A label without digits that has an N: the text after the N is read
    and is not an integer. *)
Lemma uplink_body_no_digits_with_N m record label :
  record !! 0%nat = Some label -> no_digits label ->
  In "N"%char (list_ascii_of_string label) ->
  uplink_body long_int_name m record = Raise ValueError.
Proof.
  intros H0 Hnd HN. unfold uplink_body.
  rewrite (index_lookup _ _ _ H0). cbn [rbind].
  destruct (split_chars_with_sep "N" _ [] HN) as (before & piece & after & Hs).
  unfold Py.split. rewrite Hs.
  rewrite (index_lookup (before :: piece :: after) 1 piece) by reflexivity.
  cbn [rbind].
  assert (Hp : no_digits piece).
  { apply (split_no_digits "N" label); [exact Hnd|].
    unfold Py.split. rewrite Hs. right. left. reflexivity. }
  rewrite (int_no_digits _ Hp). reflexivity.
Qed.

(** A label without an N: there is no text after an N to read. *)
Lemma uplink_body_without_N m record label :
  record !! 0%nat = Some label ->
  ~ In "N"%char (list_ascii_of_string label) ->
  uplink_body long_int_name m record = Raise IndexError.
Proof.
  intros H0 HN. unfold uplink_body.
  rewrite (index_lookup _ _ _ H0). cbn [rbind].
  unfold Py.split. rewrite (split_chars_no_sep _ _ [] HN). reflexivity.
Qed.

Lemma uplink_resolver_reaches before record after e :
  Forall root_record before ->
  (forall m, uplink_body long_int_name m record = Raise e) ->
  uplink_resolver long_int_name (before ++ record :: after) = Raise e.
Proof.
  intros Hb He. unfold uplink_resolver. rewrite uplink_loop_app.
  destruct (uplink_loop_spec long_int_name before ∅ Hb) as (m & -> & _).
  cbn [rbind uplink_loop]. rewrite He. reflexivity.
Qed.

Lemma label_vlan_of_digits (prefix digits : string) :
  ~ In "N"%char (list_ascii_of_string prefix) ->
  digits <> "" ->
  Forall (fun c => Py.is_digit c = true) (list_ascii_of_string digits) ->
  label_vlan (prefix ++ "N" ++ digits)
  = Some (decimal (list_ascii_of_string digits)).
Proof.
  intros Hp Hne Hd.
  assert (HnoN : ~ In "N"%char (list_ascii_of_string digits)).
  { intros H. rewrite List.Forall_forall in Hd. specialize (Hd _ H). discriminate Hd. }
  unfold label_vlan, Py.split. rewrite chars_app.
  change (list_ascii_of_string ("N" ++ digits))
    with ("N"%char :: list_ascii_of_string digits).
  rewrite (split_chars_at_sep _ _ _ [] Hp), (split_chars_no_sep _ _ [] HnoN).
  cbn [rev app]. rewrite string_of_list_ascii_of_string.
  unfold vlan_of_field. rewrite (int_digits _ Hne Hd). reflexivity.
Qed.

End LabelKinds.

(** C7 (as the code has it): on spanning-tree-root records that each have
    at least seven fields and a label in which an integer follows the
    first N, as in VLAN0010, the resolver returns a map that gives each
    vlan id the normalized root port of the last record that has this id
    and a non-empty normalized root port, and nothing for a vlan without
    such a record: a record whose normalized root port is empty adds no
    entry, a later record for the same vlan replaces the earlier one, and
    every port in the map is non-empty. For a label made of a prefix
    without N, an N and digits, the vlan id is the decimal value of the
    digits. The record (VLAN0010, ..., Gi1/0/1) alone gives
    {10: gigabitethernet1/0/1}, for every normalizer that takes Gi1/0/1 to
    that name. *)
Theorem C7_uplink_map
    (long_int_name : string -> string) (records : list entry) :
  Forall root_record records ->
  exists uplinks,
    uplink_resolver long_int_name records = Ok uplinks
    /\ (forall vlan, uplinks !! vlan = last_uplink long_int_name vlan records)
    /\ (forall vlan port, uplinks !! vlan = Some port -> port <> "")
    /\ (forall record,
          root_record record ->
          contribution long_int_name record = None ->
          uplink_resolver long_int_name (records ++ [record])%list = Ok uplinks)
    /\ (forall prefix digits,
          ~ In "N"%char (list_ascii_of_string prefix) ->
          digits <> "" ->
          Forall (fun c => Py.is_digit c = true) (list_ascii_of_string digits) ->
          label_vlan (prefix ++ "N" ++ digits)
          = Some (decimal (list_ascii_of_string digits)))
    /\ (forall f1 f2 f3 f4 f5,
          Py.strip (long_int_name "Gi1/0/1") = "gigabitethernet1/0/1" ->
          uplink_resolver long_int_name
            [ ["VLAN0010"; f1; f2; f3; f4; f5; "Gi1/0/1"] ]
          = Ok {[ 10 := "gigabitethernet1/0/1" ]}).
Proof.
  intros Hrec.
  destruct (uplink_loop_spec long_int_name records ∅ Hrec) as (m & Hm & Hlook).
  assert (Hlast : forall vlan, m !! vlan = last_uplink long_int_name vlan records).
  { intros vlan. rewrite Hlook, lookup_empty.
    destruct (last_uplink long_int_name vlan records); reflexivity. }
  exists m. split; [exact Hm|]. split; [exact Hlast|]. split; [|split; [|split]].
  - intros vlan port Hp. rewrite Hlast in Hp.
    eapply last_uplink_nonempty, Hp.
  - intros record Hr Hnone.
    assert (Hall : Forall root_record (records ++ [record])%list)
      by (apply Forall_app; split; [exact Hrec | constructor; [exact Hr | constructor]]).
    destruct (uplink_loop_spec long_int_name _ ∅ Hall) as (m' & Hm' & Hlook').
    unfold uplink_resolver. rewrite Hm'. f_equal. apply map_eq. intros vlan.
    rewrite Hlook', Hlast, lookup_empty.
    clear -Hnone. induction records as [|r records IH]; simpl.
    + rewrite Hnone. reflexivity.
    + rewrite <- IH.
      destruct (last_uplink long_int_name vlan (records ++ [record])%list)
        eqn:Hl; simpl.
      * reflexivity.
      * destruct (contribution long_int_name r) as [[v p]|]; [|reflexivity].
        destruct (decide (v = vlan)); reflexivity.
  - apply label_vlan_of_digits.
  - intros f1 f2 f3 f4 f5 Hgi.
    unfold uplink_resolver. cbn [uplink_loop].
    rewrite uplink_body_spec.
    + unfold contribution.
      assert (Hv : label_vlan "VLAN0010" = Some 10) by reflexivity.
      rewrite Hv, Hgi. simpl. rewrite insert_empty. reflexivity.
    + split; [simpl; lia|]. exists "VLAN0010". split; [reflexivity|].
      exists 10. reflexivity.
Qed.

Lemma C7_uplink_map_example :
  Forall root_record
    [ ["VLAN0010"; "32778"; "0011.2233.4455"; "4"; "2"; "20"; "Gi1/0/1"];
      ["VLAN0020"; "32788"; "0011.2233.4455"; "0"; "2"; "20"; ""] ]
  /\ exists uplinks,
       uplink_resolver Utilities.long_int_name
         [ ["VLAN0010"; "32778"; "0011.2233.4455"; "4"; "2"; "20"; "Gi1/0/1"];
           ["VLAN0020"; "32788"; "0011.2233.4455"; "0"; "2"; "20"; ""] ]
       = Ok uplinks
       /\ uplinks !! 10 = Some "gigabitethernet1/0/1"
       /\ uplinks !! 20 = None.
Proof.
  assert (H : Forall root_record
                [ ["VLAN0010"; "32778"; "0011.2233.4455"; "4"; "2"; "20"; "Gi1/0/1"];
                  ["VLAN0020"; "32788"; "0011.2233.4455"; "0"; "2"; "20"; ""] ]).
  { repeat constructor; simpl; try lia.
    - exists "VLAN0010". split; [reflexivity|]. exists 10. reflexivity.
    - exists "VLAN0020". split; [reflexivity|]. exists 20. reflexivity. }
  split; [exact H|].
  destruct (C7_uplink_map Utilities.long_int_name _ H) as (m & Hm & Hlook & _).
  exists m. split; [exact Hm|]. split; rewrite Hlook; reflexivity.
Defined.

(** C7, as the specification states it, fails on records whose label is a
    textual prefix followed by digits but has no N: for Vlan10 and for
    MST0001, each in a record of seven fields with a root port, the
    resolver raises [IndexError] and no map results. *)
Lemma C7_label_without_N_gives_no_map :
  uplink_resolver Utilities.long_int_name
    [ ["Vlan10"; "32778"; "0011.2233.4455"; "4"; "2"; "20"; "Gi1/0/1"] ]
  = Raise IndexError
  /\ uplink_resolver Utilities.long_int_name
       [ ["MST0001"; "32768"; "0011.2233.4455"; "4"; "2"; "20"; "Gi1/0/1"] ]
     = Raise IndexError
  /\ uplink_resolver (fun int_name => int_name)
       [ ["VLAN0010"; "32778"; "0011.2233.4455"; "4"; "2"; "20"; "Gi1/0/1"];
         ["Vlan10"; "32778"; "0011.2233.4455"; "4"; "2"; "20"; "Gi1/0/2"] ]
     = Raise IndexError.
Proof. vm_compute. repeat split. Qed.

(** C5 (as the code has it): when a record of the parsed spanning-tree
    output has a label without digits, the resolver raises a built-in
    error, [ValueError] or [IndexError], and returns no map; the collector
    stops there, after the spanning-tree command and without leaving
    automation mode, and raises the same error; none of the handlers of
    the batch loop takes it. When the records before that one can all be
    read, the error is [ValueError] if the label has an N and
    [IndexError] if it has none. *)
Theorem C5_label_without_digits
    (long_int_name : string -> string)
    (textfsm_parse_to_list : string -> template -> list entry)
    (script : Script) (session : Session) (enable : string) (vs : gset Z)
    (tpl : template) (raw : string)
    (before : list entry) (record : entry) (after : list entry) (label : string) :
  start_cisco_session session = Ok tt ->
  get_template script "cisco_os_show_spanning-tree_root.template" = Ok tpl ->
  get_command_output session "show spanning-tree root" = Ok raw ->
  textfsm_parse_to_list raw tpl = (before ++ record :: after)%list ->
  record !! 0%nat = Some label -> no_digits label ->
  (exists e, (e = ValueError \/ e = IndexError)
     /\ uplink_resolver long_int_name (textfsm_parse_to_list raw tpl) = Raise e
     /\ per_device_work long_int_name textfsm_parse_to_list script session enable vs
        = ([EStartCiscoSession; ECommand "show spanning-tree root"], Raise e)
     /\ forall device, failure_handler device e = raise e)
  /\ (Forall root_record before ->
      (In "N"%char (list_ascii_of_string label) ->
       uplink_resolver long_int_name (textfsm_parse_to_list raw tpl)
       = Raise ValueError)
      /\ (~ In "N"%char (list_ascii_of_string label) ->
          uplink_resolver long_int_name (textfsm_parse_to_list raw tpl)
          = Raise IndexError)).
Proof.
  intros Hs Ht Hr Hparse H0 Hnd.
  assert (Hin : In record (textfsm_parse_to_list raw tpl))
    by (rewrite Hparse; apply in_or_app; right; left; reflexivity).
  split.
  - destruct (per_device_work_bad_label long_int_name textfsm_parse_to_list script
                session enable vs tpl raw record label Hs Ht Hr Hin H0 Hnd)
      as (e & Hk & He & Hw).
    exists e. repeat split; try assumption.
    intros device. destruct Hk as [-> | ->]; reflexivity.
  - intros Hb. rewrite Hparse. split; intros HN.
    + apply uplink_resolver_reaches; [exact Hb|]. intros m.
      apply (uplink_body_no_digits_with_N long_int_name m record label H0 Hnd HN).
    + apply uplink_resolver_reaches; [exact Hb|]. intros m.
      apply (uplink_body_without_N long_int_name m record label H0 HN).
Qed.

Lemma C5_label_without_digits_example :
  uplink_resolver Utilities.long_int_name
    (Utilities.textfsm_parse_to_list "VLAN|32778|0011.2233.4455|4|2|20|Gi1/0/1"
       "cisco_os_show_spanning-tree_root.template")
  = Raise ValueError
  /\ exists e,
       Sim.work Sim.label_then_sw1 Sim.sw_label
       = ([EStartCiscoSession; ECommand "show spanning-tree root"], Raise e).
Proof.
  destruct (C5_label_without_digits Utilities.long_int_name
              Utilities.textfsm_parse_to_list Sim.label_then_sw1 Sim.sw_label
              "secret" {[ 10 ]}
              "cisco_os_show_spanning-tree_root.template"
              "VLAN|32778|0011.2233.4455|4|2|20|Gi1/0/1"
              []
              ["VLAN"; "32778"; "0011.2233.4455"; "4"; "2"; "20"; "Gi1/0/1"]
              []
              "VLAN")
    as ((e & _ & _ & Hw & _) & Hkind).
  - reflexivity.
  - reflexivity.
  - reflexivity.
  - reflexivity.
  - reflexivity.
  - exact no_digits_VLAN.
  - split.
    + apply Hkind; [constructor|]. simpl. tauto.
    + exists e. exact Hw.
Defined.
